(** * SAM-HQ configuration classes

    A shallow embedding of
    [src/transformers/models/sam_hq/configuration_sam_hq.py]: the three
    sub-configuration classes, the composite [SAMHQConfig], and the
    statements about them.

    An instance is modelled by its class tag and its attribute dictionary;
    a call with keyword arguments takes the dictionary of those
    arguments.  Integers are [Z], floats are binary64 ([PrimFloat.float]),
    and a list is a reference into a heap of list objects, so that two
    attributes can name the same list. *)

From Stdlib Require Import ZArith Floats Lia.
From stdpp Require Import gmap strings.

#[local] Set Warnings "-inexact-float".
#[local] Open Scope Z_scope.

(** ** Values *)

(** Address of a list object. *)
Definition loc := positive.

(** The values a configuration field holds. *)
Inductive pyval :=
  | VNone
  | VBool (b : bool)
  | VInt (z : Z)
  | VFloat (f : float)
  | VStr (s : string)
  | VList (l : loc).

(** A [dict] with string keys: keyword arguments, the result of [to_dict]. *)
Abbreviation dict := (gmap string pyval).

(** The list objects that are alive, by address. *)
Abbreviation heap := (gmap loc (list pyval)).

(** ** Outcomes *)

(** The built-in exceptions the arithmetic of this file can raise. *)
Inductive exn := TypeError | ZeroDivisionError | ValueError | OverflowError.

(** A call returns, raises, or leaves the fragment of Python whose
    semantics is defined here ([Unmodelled]: floor division with a float
    operand, sequence repetition, [int] of a [str]). *)
Inductive outcome (A : Type) :=
  | Returns (a : A)
  | Raises (e : exn)
  | Unmodelled.
Arguments Returns {A} a.
Arguments Raises {A} e.
Arguments Unmodelled {A}.

(** Sequencing: the first call that does not return ends the whole. *)
#[global] Instance outcome_bind : MBind outcome := λ A B k r,
  match r with
  | Returns a => k a
  | Raises e => Raises e
  | Unmodelled => Unmodelled
  end.

(** ** Built-in operations *)

(** [x is None] *)
Definition is_None (v : pyval) : bool :=
  match v with VNone => true | _ => false end.

(** [bool] is a subclass of [int]: both take part in integer arithmetic. *)
Definition as_int (v : pyval) : option Z :=
  match v with
  | VInt z => Some z
  | VBool b => Some (Z.b2z b)
  | _ => None
  end.

Definition is_number (v : pyval) : bool :=
  match v with VBool _ | VInt _ | VFloat _ => true | _ => false end.

Definition is_sequence (v : pyval) : bool :=
  match v with VStr _ | VList _ => true | _ => false end.

(** [a // b].  On integers it is floor division ([Z.div] rounds toward
    minus infinity, the remainder takes the sign of the divisor) and a zero
    divisor raises; an operand that is no number raises [TypeError]. *)
Definition py_floordiv (a b : pyval) : outcome pyval :=
  match as_int a, as_int b with
  | Some x, Some y =>
      if y =? 0 then Raises ZeroDivisionError else Returns (VInt (x / y))
  | _, _ =>
      if is_number a && is_number b then Unmodelled else Raises TypeError
  end.

(** [float(n)] for an integer [n]: the nearest binary64 number, ties to
    even; an integer that rounds to infinity raises [OverflowError]. *)
Definition float_of_int (n : Z) : outcome float :=
  match binary_normalize prec emax n 0 false with
  | S754_infinity _ => Raises OverflowError
  | x => Returns (SF2Prim x)
  end.

(** [a * b]: integer product, or the binary64 product once an integer
    operand facing a float has been converted to float. *)
Definition py_mul (a b : pyval) : outcome pyval :=
  match a, b with
  | VFloat x, VFloat y => Returns (VFloat (x * y))
  | VFloat x, _ =>
      match as_int b with
      | Some n => y ← float_of_int n; Returns (VFloat (x * y))
      | None => Raises TypeError
      end
  | _, VFloat y =>
      match as_int a with
      | Some n => x ← float_of_int n; Returns (VFloat (x * y))
      | None => Raises TypeError
      end
  | _, _ =>
      match as_int a, as_int b with
      | Some x, Some y => Returns (VInt (x * y))
      | Some _, None => if is_sequence b then Unmodelled else Raises TypeError
      | None, Some _ => if is_sequence a then Unmodelled else Raises TypeError
      | None, None => Raises TypeError
      end
  end.

(** The integer part of a binary64 number [(-1)^s * m * 2^e], dropping the
    fraction ([Z.quot] rounds toward zero). *)
Definition float_trunc (f : float) : outcome Z :=
  match Prim2SF f with
  | S754_nan => Raises ValueError
  | S754_infinity _ => Raises OverflowError
  | S754_zero _ => Returns 0
  | S754_finite s m e =>
      Returns (if 0 <=? e then cond_Zopp s (Z.pos m) * 2 ^ e
               else Z.quot (cond_Zopp s (Z.pos m)) (2 ^ (- e)))
  end.

(** [int(x)] *)
Definition py_int (v : pyval) : outcome pyval :=
  match v with
  | VInt z => Returns (VInt z)
  | VBool b => Returns (VInt (Z.b2z b))
  | VFloat f => n ← float_trunc f; Returns (VInt n)
  | VStr _ => Unmodelled
  | VNone | VList _ => Raises TypeError
  end.

(** The nearest integer of a binary64 number, ties to the even one. *)
Definition float_round (f : float) : outcome Z :=
  match Prim2SF f with
  | S754_nan => Raises ValueError
  | S754_infinity _ => Raises OverflowError
  | S754_zero _ => Returns 0
  | S754_finite s m e =>
      Returns (cond_Zopp s
        (if 0 <=? e then Z.pos m * 2 ^ e
         else
           let q := Z.pos m / 2 ^ (- e) in
           let r := Z.pos m mod 2 ^ (- e) in
           match 2 * r ?= 2 ^ (- e) with
           | Lt => q
           | Gt => q + 1
           | Eq => if Z.even q then q else q + 1
           end))
  end.

(** [round(x)] with one argument. *)
Definition py_round (v : pyval) : outcome pyval :=
  match v with
  | VInt z => Returns (VInt z)
  | VBool b => Returns (VInt (Z.b2z b))
  | VFloat f => n ← float_round f; Returns (VInt n)
  | VNone | VStr _ | VList _ => Raises TypeError
  end.

(** [n] is [f] with its fraction dropped: [|n| <= |f| < |n| + 1] on the
    exact value [m * 2^e] of [|f|], and [n] carries the sign of [f]. *)
Definition truncation_of (f : float) (n : Z) : Prop :=
  match Prim2SF f with
  | S754_zero _ => n = 0
  | S754_finite s m e =>
      Z.abs n * 2 ^ Z.max 0 (- e) ≤ Z.pos m * 2 ^ Z.max 0 e
      ∧ Z.pos m * 2 ^ Z.max 0 e < (Z.abs n + 1) * 2 ^ Z.max 0 (- e)
      ∧ n = cond_Zopp s (Z.abs n)
  | S754_infinity _ | S754_nan => False
  end.

(** The fraction of [|f|] is below one half, or it is one half and the
    integer part is even: the cases in which rounding to nearest keeps
    the integer part. *)
Definition fraction_rounds_down (f : float) : bool :=
  match Prim2SF f with
  | S754_finite _ m e =>
      (0 <=? e)
      || (2 * (Z.pos m mod 2 ^ (- e)) <? 2 ^ (- e))
      || ((2 * (Z.pos m mod 2 ^ (- e)) =? 2 ^ (- e))
          && Z.even (Z.pos m / 2 ^ (- e)))
  | _ => true
  end.

(** The derivation of [mlp_dim] in the words of the specification:
    [round(hidden_size * mlp_ratio)], rounding to nearest. *)
Definition mlp_dim_by_round (hidden_size mlp_ratio : pyval) : outcome pyval :=
  product ← py_mul hidden_size mlp_ratio; py_round product.

(** ** Keyword calls *)

(** The value bound to parameter [name] by a call with keyword arguments
    [kw]: the keyword's value when it is given, the parameter's default
    otherwise. *)
Definition arg (kw : dict) (name : string) (dflt : pyval) : pyval :=
  default dflt (kw !! name).

(** What the [kwargs] catch-all collects: the keywords that name no
    parameter. *)
Definition rest {V} (params : list string) (kw : gmap string V) : gmap string V :=
  foldr delete kw params.

(** ** Instances *)

(** The sub-configuration classes. *)
Inductive class :=
  | SAMHQPromptEncoderConfig
  | SAMHQMaskDecoderConfig
  | SAMHQVisionConfig.

#[global] Instance class_eq_dec : EqDecision class.
Proof. solve_decision. Defined.

(** An instance: its class and its [__dict__]. *)
Record obj := Obj { class_of : class; attrs : dict }.

(** ** The base class *)

Module PretrainedConfig.

(** Modelled from the spec: [PretrainedConfig.__init__], the generic
    base-configuration layer, which is not part of the source file.  It
    accepts arbitrary extra named options as opaque pass-through and does
    not fail on unrecognized keys (spec 4.1 and 6): the options become the
    first attributes of the new instance. *)
Definition __init__ {V} (kwargs : gmap string V) : outcome (gmap string V) :=
  Returns kwargs.

(** Modelled from the spec: [PretrainedConfig.to_dict], the flattened
    mapping from every field name to its current value (spec 6). *)
Definition to_dict (self : obj) : dict := attrs self.

End PretrainedConfig.

(** ** SAMHQPromptEncoderConfig *)

Module SAMHQPromptEncoderConfig.

Definition params : list string :=
  ["hidden_size"; "image_size"; "patch_size"; "mask_input_channels";
   "num_point_embeddings"; "hidden_act"; "layer_norm_eps"].

Definition __init__ (kw : dict) : outcome obj :=
  let hidden_size := arg kw "hidden_size" (VInt 256) in
  let image_size := arg kw "image_size" (VInt 1024) in
  let patch_size := arg kw "patch_size" (VInt 16) in
  let mask_input_channels := arg kw "mask_input_channels" (VInt 16) in
  let num_point_embeddings := arg kw "num_point_embeddings" (VInt 4) in
  let hidden_act := arg kw "hidden_act" (VStr "gelu") in
  let layer_norm_eps := arg kw "layer_norm_eps" (VFloat 1e-6) in
  let kwargs := rest params kw in
  self ← PretrainedConfig.__init__ kwargs;
  let self := <["hidden_size" := hidden_size]> self in
  let self := <["image_size" := image_size]> self in
  let self := <["patch_size" := patch_size]> self in
  image_embedding_size ← py_floordiv image_size patch_size;
  let self := <["image_embedding_size" := image_embedding_size]> self in
  let self := <["mask_input_channels" := mask_input_channels]> self in
  let self := <["num_point_embeddings" := num_point_embeddings]> self in
  let self := <["hidden_act" := hidden_act]> self in
  let self := <["layer_norm_eps" := layer_norm_eps]> self in
  Returns (Obj SAMHQPromptEncoderConfig self).

End SAMHQPromptEncoderConfig.

(** ** SAMHQMaskDecoderConfig *)

Module SAMHQMaskDecoderConfig.

Definition params : list string :=
  ["hidden_size"; "hidden_act"; "mlp_dim"; "num_hidden_layers";
   "num_attention_heads"; "attention_downsam_hqple_rate";
   "num_multimask_outputs"; "iou_head_depth"; "iou_head_hidden_dim";
   "layer_norm_eps"; "vision_encoder_dim"].

Definition __init__ (kw : dict) : outcome obj :=
  let hidden_size := arg kw "hidden_size" (VInt 256) in
  let hidden_act := arg kw "hidden_act" (VStr "relu") in
  let mlp_dim := arg kw "mlp_dim" (VInt 2048) in
  let num_hidden_layers := arg kw "num_hidden_layers" (VInt 2) in
  let num_attention_heads := arg kw "num_attention_heads" (VInt 8) in
  let attention_downsam_hqple_rate :=
    arg kw "attention_downsam_hqple_rate" (VInt 2) in
  let num_multimask_outputs := arg kw "num_multimask_outputs" (VInt 3) in
  let iou_head_depth := arg kw "iou_head_depth" (VInt 3) in
  let iou_head_hidden_dim := arg kw "iou_head_hidden_dim" (VInt 256) in
  let layer_norm_eps := arg kw "layer_norm_eps" (VFloat 1e-6) in
  let vision_encoder_dim := arg kw "vision_encoder_dim" (VInt 768) in
  let kwargs := rest params kw in
  self ← PretrainedConfig.__init__ kwargs;
  let self := <["vision_encoder_dim" := vision_encoder_dim]> self in
  let self := <["hidden_size" := hidden_size]> self in
  let self := <["hidden_act" := hidden_act]> self in
  let self := <["mlp_dim" := mlp_dim]> self in
  let self := <["num_hidden_layers" := num_hidden_layers]> self in
  let self := <["num_attention_heads" := num_attention_heads]> self in
  let self :=
    <["attention_downsam_hqple_rate" := attention_downsam_hqple_rate]> self in
  let self := <["num_multimask_outputs" := num_multimask_outputs]> self in
  let self := <["iou_head_depth" := iou_head_depth]> self in
  let self := <["iou_head_hidden_dim" := iou_head_hidden_dim]> self in
  let self := <["layer_norm_eps" := layer_norm_eps]> self in
  Returns (Obj SAMHQMaskDecoderConfig self).

End SAMHQMaskDecoderConfig.

(** ** SAMHQVisionConfig *)

(** The list [[2, 5, 8, 11]] written as the default of
    [global_attn_indexes] is built once, when the [def] statement of
    [SAMHQVisionConfig.__init__] is executed; every call that omits the
    argument receives this one object. *)
Definition global_attn_indexes_default : loc := 1%positive.

(** The heap once the module is loaded. *)
Definition module_heap : heap :=
  {[ global_attn_indexes_default := [VInt 2; VInt 5; VInt 8; VInt 11] ]}.

(** [xs.append(v)] on the list object at [l]. *)
Definition list_append (l : loc) (v : pyval) (h : heap) : heap :=
  alter (λ xs, xs ++ [v]) l h.

(** The list an attribute refers to, read in heap [h]. *)
Definition read_list (o : obj) (name : string) (h : heap) : option (list pyval) :=
  match attrs o !! name with
  | Some (VList l) => h !! l
  | _ => None
  end.

Module SAMHQVisionConfig.

Definition params : list string :=
  ["hidden_size"; "output_channels"; "num_hidden_layers";
   "num_attention_heads"; "num_channels"; "image_size"; "patch_size";
   "hidden_act"; "layer_norm_eps"; "attention_dropout";
   "initializer_range"; "qkv_bias"; "mlp_ratio"; "use_abs_pos";
   "use_rel_pos"; "window_size"; "global_attn_indexes"; "num_pos_feats";
   "mlp_dim"].

Definition __init__ (kw : dict) : outcome obj :=
  let hidden_size := arg kw "hidden_size" (VInt 768) in
  let output_channels := arg kw "output_channels" (VInt 256) in
  let num_hidden_layers := arg kw "num_hidden_layers" (VInt 12) in
  let num_attention_heads := arg kw "num_attention_heads" (VInt 12) in
  let num_channels := arg kw "num_channels" (VInt 3) in
  let image_size := arg kw "image_size" (VInt 1024) in
  let patch_size := arg kw "patch_size" (VInt 16) in
  let hidden_act := arg kw "hidden_act" (VStr "gelu") in
  let layer_norm_eps := arg kw "layer_norm_eps" (VFloat 1e-06) in
  let attention_dropout := arg kw "attention_dropout" (VFloat 0.0) in
  let initializer_range := arg kw "initializer_range" (VFloat 1e-10) in
  let qkv_bias := arg kw "qkv_bias" (VBool true) in
  let mlp_ratio := arg kw "mlp_ratio" (VFloat 4.0) in
  let use_abs_pos := arg kw "use_abs_pos" (VBool true) in
  let use_rel_pos := arg kw "use_rel_pos" (VBool true) in
  let window_size := arg kw "window_size" (VInt 14) in
  let global_attn_indexes :=
    arg kw "global_attn_indexes" (VList global_attn_indexes_default) in
  let num_pos_feats := arg kw "num_pos_feats" (VInt 128) in
  let mlp_dim := arg kw "mlp_dim" VNone in
  let kwargs := rest params kw in
  self ← PretrainedConfig.__init__ kwargs;
  let self := <["hidden_size" := hidden_size]> self in
  let self := <["output_channels" := output_channels]> self in
  let self := <["num_hidden_layers" := num_hidden_layers]> self in
  let self := <["num_attention_heads" := num_attention_heads]> self in
  let self := <["num_channels" := num_channels]> self in
  let self := <["image_size" := image_size]> self in
  let self := <["patch_size" := patch_size]> self in
  let self := <["hidden_act" := hidden_act]> self in
  let self := <["layer_norm_eps" := layer_norm_eps]> self in
  let self := <["attention_dropout" := attention_dropout]> self in
  let self := <["initializer_range" := initializer_range]> self in
  let self := <["qkv_bias" := qkv_bias]> self in
  let self := <["mlp_ratio" := mlp_ratio]> self in
  let self := <["use_abs_pos" := use_abs_pos]> self in
  let self := <["use_rel_pos" := use_rel_pos]> self in
  let self := <["window_size" := window_size]> self in
  let self := <["global_attn_indexes" := global_attn_indexes]> self in
  let self := <["num_pos_feats" := num_pos_feats]> self in
  mlp_dim ←
    (if is_None mlp_dim
     then product ← py_mul hidden_size mlp_ratio; py_int product
     else Returns mlp_dim);
  let self := <["mlp_dim" := mlp_dim]> self in
  Returns (Obj SAMHQVisionConfig self).

End SAMHQVisionConfig.

(** ** SAMHQConfig *)

(** What a sub-configuration argument, and then the attribute made from it,
    can be: a plain value ([None] when the argument is omitted), a [dict],
    or an instance of a configuration class. *)
Inductive value :=
  | Plain (v : pyval)
  | Dict (d : dict)
  | Object (o : obj).

(** [isinstance(v, c)] *)
Definition isinstance (v : value) (c : class) : bool :=
  match v with
  | Object o => bool_decide (class_of o = c)
  | _ => false
  end.

(** [v if v is not None else {}] *)
Definition or_empty (v : value) : value :=
  match v with
  | Plain VNone => Dict ∅
  | _ => v
  end.

(** [if isinstance(v, c): v = v.to_dict()] *)
Definition flatten (c : class) (v : value) : value :=
  match v with
  | Object o => if isinstance v c then Dict (PretrainedConfig.to_dict o) else v
  | _ => v
  end.

(** The call of [init] with a double-starred argument [v]: only a mapping
    can be unpacked into keywords. *)
Definition call_unpack (init : dict → outcome obj) (v : value) : outcome obj :=
  match v with
  | Dict d => init d
  | _ => Raises TypeError
  end.

Module SAMHQConfig.

Definition model_type : string := "sam-hq".

Definition params : list string :=
  ["vision_config"; "prompt_encoder_config"; "mask_decoder_config";
   "initializer_range"].

Definition __init__ (kw : gmap string value) : outcome (gmap string value) :=
  let vision_config := default (Plain VNone) (kw !! "vision_config") in
  let prompt_encoder_config :=
    default (Plain VNone) (kw !! "prompt_encoder_config") in
  let mask_decoder_config :=
    default (Plain VNone) (kw !! "mask_decoder_config") in
  let initializer_range :=
    default (Plain (VFloat 0.02)) (kw !! "initializer_range") in
  let kwargs := rest params kw in
  self ← PretrainedConfig.__init__ kwargs;
  let vision_config := or_empty vision_config in
  let prompt_encoder_config := or_empty prompt_encoder_config in
  let mask_decoder_config := or_empty mask_decoder_config in
  let vision_config := flatten SAMHQVisionConfig vision_config in
  let prompt_encoder_config :=
    flatten SAMHQPromptEncoderConfig prompt_encoder_config in
  let mask_decoder_config :=
    flatten SAMHQMaskDecoderConfig mask_decoder_config in
  vision ← call_unpack SAMHQVisionConfig.__init__ vision_config;
  let self := <["vision_config" := Object vision]> self in
  prompt_encoder ←
    call_unpack SAMHQPromptEncoderConfig.__init__ prompt_encoder_config;
  let self := <["prompt_encoder_config" := Object prompt_encoder]> self in
  mask_decoder ←
    call_unpack SAMHQMaskDecoderConfig.__init__ mask_decoder_config;
  let self := <["mask_decoder_config" := Object mask_decoder]> self in
  let self := <["initializer_range" := initializer_range]> self in
  Returns self.

End SAMHQConfig.

(** ** Fully defaulted instances *)

(** The parameters a constructor stores as they are, each with the default
    its signature declares. *)
Definition defaults_of (c : class) : list (string * pyval) :=
  match c with
  | SAMHQPromptEncoderConfig =>
      [("hidden_size", VInt 256); ("image_size", VInt 1024);
       ("patch_size", VInt 16); ("mask_input_channels", VInt 16);
       ("num_point_embeddings", VInt 4); ("hidden_act", VStr "gelu");
       ("layer_norm_eps", VFloat 1e-6)]
  | SAMHQMaskDecoderConfig =>
      [("hidden_size", VInt 256); ("hidden_act", VStr "relu");
       ("mlp_dim", VInt 2048); ("num_hidden_layers", VInt 2);
       ("num_attention_heads", VInt 8);
       ("attention_downsam_hqple_rate", VInt 2);
       ("num_multimask_outputs", VInt 3); ("iou_head_depth", VInt 3);
       ("iou_head_hidden_dim", VInt 256); ("layer_norm_eps", VFloat 1e-6);
       ("vision_encoder_dim", VInt 768)]
  | SAMHQVisionConfig =>
      [("hidden_size", VInt 768); ("output_channels", VInt 256);
       ("num_hidden_layers", VInt 12); ("num_attention_heads", VInt 12);
       ("num_channels", VInt 3); ("image_size", VInt 1024);
       ("patch_size", VInt 16); ("hidden_act", VStr "gelu");
       ("layer_norm_eps", VFloat 1e-06); ("attention_dropout", VFloat 0.0);
       ("initializer_range", VFloat 1e-10); ("qkv_bias", VBool true);
       ("mlp_ratio", VFloat 4.0); ("use_abs_pos", VBool true);
       ("use_rel_pos", VBool true); ("window_size", VInt 14);
       ("global_attn_indexes", VList global_attn_indexes_default);
       ("num_pos_feats", VInt 128)]
  end.

(** The attributes a constructor computes. *)
Definition derived_of (c : class) : list string :=
  match c with
  | SAMHQPromptEncoderConfig => ["image_embedding_size"]
  | SAMHQMaskDecoderConfig => []
  | SAMHQVisionConfig => ["mlp_dim"]
  end.

(** Attribute [p.1] of [o] holds what the keywords [d] give it, or the
    default [p.2]. *)
Definition assigned (d : dict) (o : obj) (p : string * pyval) : Prop :=
  attrs o !! p.1 = Some (arg d p.1 p.2).

(** [o] is an instance of [c] made from the keywords [d]: every stored
    parameter is there, from [d] or from its default, and every computed
    attribute is there. *)
Definition fully_defaulted (c : class) (d : dict) (o : obj) : Prop :=
  class_of o = c
  ∧ Forall (assigned d o) (defaults_of c)
  ∧ Forall (λ name, is_Some (attrs o !! name)) (derived_of c).

(** The sub-configuration argument [a] of [SAMHQConfig] became the
    attribute [v]: an instance of [c], fully defaulted from the mapping
    that [a] stands for. *)
Definition normalized (c : class) (a : value) (v : option value) : Prop :=
  ∃ d o, flatten c (or_empty a) = Dict d
         ∧ v = Some (Object o)
         ∧ fully_defaulted c d o.

(** The constructor of each class. *)
Definition constructor_of (c : class) : dict → outcome obj :=
  match c with
  | SAMHQPromptEncoderConfig => SAMHQPromptEncoderConfig.__init__
  | SAMHQMaskDecoderConfig => SAMHQMaskDecoderConfig.__init__
  | SAMHQVisionConfig => SAMHQVisionConfig.__init__
  end.

(** The three kinds of sub-configuration argument: omitted ([None]), an
    instance that the constructor of [c] returned, or a mapping that the
    constructor of [c] accepts. *)
Definition documented_argument (c : class) (a : value) : Prop :=
  a = Plain VNone
  ∨ ∃ d o, constructor_of c d = Returns o ∧ (a = Object o ∨ a = Dict d).

(** * Properties *)

(** ** Tactics and small facts *)

(** Peel the assignments of an [__init__] off a lookup, newest first. *)
Ltac read_attr :=
  repeat first
    [ rewrite lookup_insert_eq
    | rewrite lookup_insert_ne by discriminate ].

(** Every stored parameter of the instance in the goal is [assigned]. *)
Ltac assigned_all :=
  cbn [defaults_of];
  repeat (apply List.Forall_cons;
          [unfold assigned; cbn [fst snd attrs]; read_attr; reflexivity|]);
  apply List.Forall_nil.

(** Every listed attribute of the instance in the goal is present. *)
Ltac present_all :=
  cbn [derived_of];
  repeat (apply List.Forall_cons;
          [cbn [attrs]; read_attr; eexists; reflexivity|]);
  apply List.Forall_nil.

(** Split a [Forall] over a list of names into one key per name. *)
Ltac keys_of H :=
  repeat (apply Forall_cons in H as [[? ?] H]).

Lemma Returns_inj {A} (a b : A) : Returns a = Returns b → a = b.
Proof. intros [= ->]. reflexivity. Qed.

Lemma arg_lookup (d : dict) (name : string) (dflt v : pyval) :
  d !! name = Some v → arg d name dflt = v.
Proof. unfold arg. intros ->. reflexivity. Qed.

Lemma py_floordiv_int (x y : Z) :
  py_floordiv (VInt x) (VInt y) =
  if y =? 0 then Raises ZeroDivisionError else Returns (VInt (x / y)).
Proof. reflexivity. Qed.

(** ** SAMHQPromptEncoderConfig *)

Section PromptEncoder.

Variable kw : dict.
Variables image patch : Z.
Hypothesis image_size_is : arg kw "image_size" (VInt 1024) = VInt image.
Hypothesis patch_size_is : arg kw "patch_size" (VInt 16) = VInt patch.

(** With integer sizes the constructor is decided by the divisor alone. *)
Lemma init_zero_patch :
  patch = 0 → SAMHQPromptEncoderConfig.__init__ kw = Raises ZeroDivisionError.
Proof.
  intros ->. unfold SAMHQPromptEncoderConfig.__init__.
  rewrite image_size_is, patch_size_is, py_floordiv_int. reflexivity.
Qed.

Lemma init_nonzero_patch :
  patch ≠ 0 →
  ∃ o, SAMHQPromptEncoderConfig.__init__ kw = Returns o
       ∧ class_of o = SAMHQPromptEncoderConfig
       ∧ attrs o !! "image_size" = Some (VInt image)
       ∧ attrs o !! "patch_size" = Some (VInt patch)
       ∧ attrs o !! "image_embedding_size" = Some (VInt (image / patch)).
Proof.
  intros HP. unfold SAMHQPromptEncoderConfig.__init__.
  rewrite image_size_is, patch_size_is, py_floordiv_int.
  destruct (Z.eqb_spec patch 0) as [|_]; [contradiction|].
  eexists. split; [reflexivity|]. cbn [attrs class_of].
  repeat split; read_attr; reflexivity.
Qed.

(** C1, as amended.  No constructor validates [patch_size].  Among the
    values that are zero or negative only zero stops the construction, and
    the exception is the [ZeroDivisionError] of the floor division; a
    negative [patch_size] yields an instance that stores it. *)
Theorem nonpositive_patch_size :
  patch ≤ 0 →
  (patch = 0 → SAMHQPromptEncoderConfig.__init__ kw = Raises ZeroDivisionError)
  ∧ (patch < 0 →
     ∃ o, SAMHQPromptEncoderConfig.__init__ kw = Returns o
          ∧ class_of o = SAMHQPromptEncoderConfig
          ∧ attrs o !! "patch_size" = Some (VInt patch)).
Proof.
  intros _. split.
  - apply init_zero_patch.
  - intros Hneg.
    destruct init_nonzero_patch as (o & Ho & Hc & _ & Hp & _); [lia|].
    exists o. auto.
Qed.

(** C3.  When [patch_size] is positive and divides [image_size], the
    instance is built and its [image_embedding_size] is the floor quotient
    [image_size // patch_size], which is then the exact quotient; it is
    stored next to the two sizes it was computed from. *)
Theorem image_embedding_size_is_quotient :
  0 < patch →
  (patch | image) →
  ∃ o, SAMHQPromptEncoderConfig.__init__ kw = Returns o
       ∧ attrs o !! "image_embedding_size" = Some (VInt (image / patch))
       ∧ attrs o !! "image_size" = Some (VInt image)
       ∧ attrs o !! "patch_size" = Some (VInt patch)
       ∧ image / patch * patch = image.
Proof.
  intros Hpos [q Hq].
  destruct init_nonzero_patch as (o & Ho & _ & Hi & Hp & He); [lia|].
  exists o. repeat split; try assumption.
  rewrite Hq, Z.div_mul by lia. reflexivity.
Qed.

(** C10.  A strictly negative [patch_size] is accepted: the instance is
    built, its [image_embedding_size] is the floor of
    [image_size / patch_size], and that is negative when [image_size] is
    positive. *)
Theorem negative_patch_size_is_accepted :
  patch < 0 →
  ∃ o, SAMHQPromptEncoderConfig.__init__ kw = Returns o
       ∧ attrs o !! "image_embedding_size" = Some (VInt (image / patch))
       ∧ (image / patch + 1) * patch < image ≤ image / patch * patch
       ∧ (0 < image → image / patch < 0).
Proof.
  intros Hneg.
  destruct init_nonzero_patch as (o & Ho & _ & _ & _ & He); [lia|].
  exists o. split; [exact Ho|]. split; [exact He|].
  pose proof (Z.div_mod image patch ltac:(lia)) as Hdm.
  pose proof (Z.mod_neg_bound image patch Hneg) as Hb.
  split; [nia|].
  intros Hi. nia.
Qed.

End PromptEncoder.

(** C1, as the claim states it, fails: a negative [patch_size] does not
    stop the construction. *)
Lemma negative_patch_size_returns :
  -16 ≤ 0
  ∧ ∃ o, SAMHQPromptEncoderConfig.__init__ {["patch_size" := VInt (-16)]}
         = Returns o
         ∧ attrs o !! "patch_size" = Some (VInt (-16)).
Proof.
  split; [lia|]. eexists. split; [reflexivity|]. reflexivity.
Qed.

Lemma nonpositive_patch_size_witness :
  SAMHQPromptEncoderConfig.__init__ {["patch_size" := VInt 0]}
  = Raises ZeroDivisionError
  ∧ ∃ o, SAMHQPromptEncoderConfig.__init__ {["patch_size" := VInt (-16)]}
         = Returns o
         ∧ attrs o !! "patch_size" = Some (VInt (-16)).
Proof.
  split.
  - apply (nonpositive_patch_size {["patch_size" := VInt 0]} 1024 0);
      [reflexivity | reflexivity | lia | reflexivity].
  - destruct (nonpositive_patch_size
                {["patch_size" := VInt (-16)]} 1024 (-16))
      as [_ Hneg]; [reflexivity | reflexivity | lia |].
    destruct Hneg as (o & Ho & _ & Hp); [lia|].
    exists o. split; [exact Ho | exact Hp].
Defined.

Lemma image_embedding_size_is_quotient_witness :
  0 < 16 ∧ (16 | 1024)
  ∧ ∃ o, SAMHQPromptEncoderConfig.__init__
           {["image_size" := VInt 1024; "patch_size" := VInt 16]} = Returns o
         ∧ attrs o !! "image_embedding_size" = Some (VInt 64).
Proof.
  assert (H16 : (16 | 1024)) by (exists 64; reflexivity).
  split; [lia|]. split; [exact H16|].
  destruct (image_embedding_size_is_quotient
              {["image_size" := VInt 1024; "patch_size" := VInt 16]} 1024 16)
    as (o & Ho & He & _); [reflexivity | reflexivity | lia | exact H16 |].
  exists o. split; [exact Ho | exact He].
Defined.

Lemma negative_patch_size_is_accepted_witness :
  -16 < 0
  ∧ ∃ o, SAMHQPromptEncoderConfig.__init__
           {["image_size" := VInt 1024; "patch_size" := VInt (-16)]} = Returns o
         ∧ attrs o !! "image_embedding_size" = Some (VInt (-64)).
Proof.
  split; [lia|].
  destruct (negative_patch_size_is_accepted
              {["image_size" := VInt 1024; "patch_size" := VInt (-16)]}
              1024 (-16))
    as (o & Ho & He & _); [reflexivity | reflexivity | lia |].
  exists o. split; [exact Ho | exact He].
Defined.

(** ** Truncation and rounding of binary64 numbers *)

Lemma cond_Zopp_inj (s : bool) (a b : Z) :
  cond_Zopp s a = cond_Zopp s b ↔ a = b.
Proof. destruct s; simpl; lia. Qed.

Lemma quot_cond_Zopp (s : bool) (m : positive) (k : Z) :
  0 < k → Z.quot (cond_Zopp s (Z.pos m)) k = cond_Zopp s (Z.pos m / k).
Proof.
  intros Hk. destruct s; cbn [cond_Zopp].
  - rewrite Z.quot_opp_l by lia. f_equal. apply Z.quot_div_nonneg; lia.
  - apply Z.quot_div_nonneg; lia.
Qed.

Lemma abs_cond_Zopp (s : bool) (a : Z) : 0 ≤ a → Z.abs (cond_Zopp s a) = a.
Proof. destruct s; simpl; lia. Qed.

(** [float_trunc] rounds toward zero. *)
Lemma float_trunc_truncates (f : float) (n : Z) :
  float_trunc f = Returns n → truncation_of f n.
Proof.
  unfold float_trunc, truncation_of.
  destruct (Prim2SF f) as [s|s| |s m e]; try discriminate.
  - intros [= <-]. reflexivity.
  - destruct (Z.leb_spec 0 e) as [He|He]; intros [= <-].
    + replace (cond_Zopp s (Z.pos m) * 2 ^ e)
        with (cond_Zopp s (Z.pos m * 2 ^ e)) by (destruct s; simpl; lia).
      assert (0 < 2 ^ e) by (apply Z.pow_pos_nonneg; lia).
      rewrite abs_cond_Zopp by lia.
      rewrite (Z.max_l 0 (- e)), (Z.max_r 0 e) by lia.
      change (2 ^ 0) with 1. repeat split; lia.
    + assert (Hk : 0 < 2 ^ (- e)) by (apply Z.pow_pos_nonneg; lia).
      rewrite quot_cond_Zopp by exact Hk.
      pose proof (Z.div_pos (Z.pos m) (2 ^ (- e)) ltac:(lia) Hk) as Hq.
      rewrite abs_cond_Zopp by exact Hq.
      rewrite (Z.max_r 0 (- e)), (Z.max_l 0 e) by lia.
      change (2 ^ 0) with 1.
      pose proof (Z.div_mod (Z.pos m) (2 ^ (- e)) ltac:(lia)) as Hdm.
      pose proof (Z.mod_pos_bound (Z.pos m) (2 ^ (- e)) Hk) as Hb.
      repeat split; nia.
Qed.

(** Whenever both are defined, truncation and rounding to nearest agree
    exactly on the numbers whose fraction rounds down. *)
Lemma float_trunc_vs_round (f : float) (n : Z) :
  float_trunc f = Returns n →
  ∃ m, float_round f = Returns m
       ∧ (n = m ↔ fraction_rounds_down f = true).
Proof.
  unfold float_trunc, float_round, fraction_rounds_down.
  destruct (Prim2SF f) as [s|s| |s m e]; try discriminate.
  - intros [= <-]. exists 0. split; [reflexivity|]. tauto.
  - destruct (Z.leb_spec 0 e) as [He|He]; intros [= <-];
      (eexists; split; [reflexivity|]).
    + cbn [orb]. split; [reflexivity|]. intros _. destruct s; simpl; lia.
    + assert (Hk : 0 < 2 ^ (- e)) by (apply Z.pow_pos_nonneg; lia).
      rewrite quot_cond_Zopp by exact Hk. rewrite cond_Zopp_inj.
      cbn [orb].
      destruct (Z.compare_spec (2 * (Z.pos m mod 2 ^ (- e))) (2 ^ (- e)))
        as [Heq|Hlt|Hgt].
      * rewrite (proj2 (Z.ltb_ge _ _)) by lia.
        rewrite (proj2 (Z.eqb_eq _ _)) by exact Heq. cbn [orb andb].
        destruct (Z.even (Z.pos m / 2 ^ (- e))); split;
          (reflexivity || discriminate || lia).
      * rewrite (proj2 (Z.ltb_lt _ _)) by exact Hlt. cbn [orb].
        split; reflexivity.
      * rewrite (proj2 (Z.ltb_ge _ _)) by lia.
        rewrite (proj2 (Z.eqb_neq _ _)) by lia. cbn [orb andb].
        split; [lia | discriminate].
Qed.

(** ** SAMHQVisionConfig *)

Lemma py_mul_int_float (h : Z) (r : float) :
  py_mul (VInt h) (VFloat r) =
  x ← float_of_int h; Returns (VFloat (x * r)).
Proof. reflexivity. Qed.

Lemma py_int_float (f : float) :
  py_int (VFloat f) = n ← float_trunc f; Returns (VInt n).
Proof. reflexivity. Qed.

(** [int(h * r)] returns [n] exactly when [float(h)] is finite and the
    binary64 product truncates to [n]. *)
Lemma int_of_product_returns (h : Z) (r : float) (n : Z) :
  py_mul (VInt h) (VFloat r) ≫= py_int = Returns (VInt n)
  ↔ ∃ x, float_of_int h = Returns x ∧ float_trunc (x * r) = Returns n.
Proof.
  rewrite py_mul_int_float. split.
  - destruct (float_of_int h) as [x| |];
      cbn [mbind outcome_bind]; try discriminate.
    rewrite py_int_float.
    destruct (float_trunc (x * r)) as [k| |] eqn:Hk;
      cbn [mbind outcome_bind]; try discriminate.
    intros [= ->]. exists x. auto.
  - intros (x & -> & Hn). cbn [mbind outcome_bind].
    rewrite py_int_float, Hn. reflexivity.
Qed.

Section Vision.

Variable kw : dict.

(** A supplied [mlp_dim] is stored as it is; nothing is computed. *)
Lemma init_explicit_mlp_dim (v : pyval) :
  arg kw "mlp_dim" VNone = v →
  v ≠ VNone →
  ∃ o, SAMHQVisionConfig.__init__ kw = Returns o
       ∧ class_of o = SAMHQVisionConfig
       ∧ attrs o !! "mlp_dim" = Some v
       ∧ attrs o !! "mlp_ratio" = Some (arg kw "mlp_ratio" (VFloat 4.0))
       ∧ attrs o !! "hidden_size" = Some (arg kw "hidden_size" (VInt 768)).
Proof.
  intros Hv Hnone. unfold SAMHQVisionConfig.__init__. rewrite Hv.
  assert (is_None v = false) as -> by (by destruct v).
  eexists. split; [reflexivity|]. cbn [attrs class_of].
  repeat split; read_attr; reflexivity.
Qed.

(** Without [mlp_dim] the constructor does what [int(hidden_size *
    mlp_ratio)] does, and stores its result last. *)
Lemma init_derived_mlp_dim :
  arg kw "mlp_dim" VNone = VNone →
  ∀ v,
    (∃ o, SAMHQVisionConfig.__init__ kw = Returns o ∧ attrs o !! "mlp_dim" = Some v)
    ↔ py_mul (arg kw "hidden_size" (VInt 768))
             (arg kw "mlp_ratio" (VFloat 4.0)) ≫= py_int = Returns v.
Proof.
  intros Hnone v. unfold SAMHQVisionConfig.__init__. rewrite Hnone. cbn [is_None].
  cbn [mbind outcome_bind PretrainedConfig.__init__].
  destruct (py_mul _ _) as [p| |]; cbn [mbind outcome_bind];
    [destruct (py_int p) as [n| |]|..]; cbn [mbind outcome_bind].
  - split.
    + intros (o & Ho & Hm). apply Returns_inj in Ho. subst o.
      cbn [attrs] in Hm. rewrite lookup_insert_eq in Hm.
      apply (f_equal Returns). exact (Some_inj _ _ Hm).
    + intros [= ->]. eexists. split; [reflexivity|].
      cbn [attrs]. apply lookup_insert_eq.
  - split; [intros (o & Ho & _)|]; discriminate.
  - split; [intros (o & Ho & _)|]; discriminate.
  - split; [intros (o & Ho & _)|]; discriminate.
  - split; [intros (o & Ho & _)|]; discriminate.
Qed.

End Vision.

(** C4.  Without a supplied [mlp_dim] (or with [mlp_dim=None]) the
    instance stores exactly what [int(hidden_size * mlp_ratio)] returns,
    and is built exactly when that expression returns; for an integer
    [hidden_size] and a float [mlp_ratio] this is the binary64 product with
    its fraction dropped, toward zero.  The defaults give 3072.  A supplied
    [mlp_dim] is stored as it is, whatever [hidden_size] and [mlp_ratio]
    are, and [mlp_ratio] is kept as given. *)
Theorem mlp_dim_is_truncated_product :
  (∀ (kw : dict) (v : pyval),
     arg kw "mlp_dim" VNone = VNone →
     (∃ o, SAMHQVisionConfig.__init__ kw = Returns o
           ∧ attrs o !! "mlp_dim" = Some v)
     ↔ py_mul (arg kw "hidden_size" (VInt 768))
              (arg kw "mlp_ratio" (VFloat 4.0)) ≫= py_int = Returns v)
  ∧ (∀ (h : Z) (r : float) (v : pyval),
       py_mul (VInt h) (VFloat r) ≫= py_int = Returns v →
       ∃ x n, v = VInt n
              ∧ float_of_int h = Returns x
              ∧ truncation_of (x * r) n)
  ∧ (∃ o, SAMHQVisionConfig.__init__ ∅ = Returns o
          ∧ attrs o !! "hidden_size" = Some (VInt 768)
          ∧ attrs o !! "mlp_ratio" = Some (VFloat 4.0)
          ∧ attrs o !! "mlp_dim" = Some (VInt 3072))
  ∧ (∀ (kw : dict) (v : pyval),
       arg kw "mlp_dim" VNone = v →
       v ≠ VNone →
       ∃ o, SAMHQVisionConfig.__init__ kw = Returns o
            ∧ attrs o !! "mlp_dim" = Some v
            ∧ attrs o !! "mlp_ratio" = Some (arg kw "mlp_ratio" (VFloat 4.0))).
Proof.
  split; [|split; [|split]].
  - intros kw v Hnone. apply init_derived_mlp_dim, Hnone.
  - intros h r v Hv.
    assert (∃ n, v = VInt n) as [n ->].
    { rewrite py_mul_int_float in Hv.
      destruct (float_of_int h) as [x| |];
        cbn [mbind outcome_bind] in Hv; try discriminate.
      rewrite py_int_float in Hv.
      destruct (float_trunc (x * r)) as [k| |];
        cbn [mbind outcome_bind] in Hv; try discriminate.
      exists k. symmetry. exact (Returns_inj _ _ Hv). }
    apply int_of_product_returns in Hv as (x & Hx & Hn).
    exists x, n. auto using float_trunc_truncates.
  - eexists. split; [reflexivity|]. repeat split; reflexivity.
  - intros kw v Hv Hnone.
    destruct (init_explicit_mlp_dim kw v Hv Hnone) as (o & Ho & _ & Hm & Hr & _).
    exists o. auto.
Qed.

Lemma mlp_dim_is_truncated_product_witness :
  (∃ o, SAMHQVisionConfig.__init__ ∅ = Returns o
        ∧ attrs o !! "mlp_dim" = Some (VInt 3072))
  ∧ (∃ x, float_of_int 768 = Returns x ∧ truncation_of (x * 4.0) 3072)
  ∧ (∃ o, SAMHQVisionConfig.__init__
            {["hidden_size" := VInt 768; "mlp_ratio" := VFloat 4.0;
              "mlp_dim" := VInt 1000]} = Returns o
          ∧ attrs o !! "mlp_dim" = Some (VInt 1000)).
Proof.
  destruct mlp_dim_is_truncated_product as (Hderived & Htrunc & _ & Hgiven).
  split; [|split].
  - apply (Hderived ∅ (VInt 3072)); reflexivity.
  - destruct (Htrunc 768 4.0%float (VInt 3072)) as (x & n & Hn & Hx & Ht);
      [reflexivity|].
    exists x. injection Hn as <-. split; [exact Hx | exact Ht].
  - destruct (Hgiven {["hidden_size" := VInt 768; "mlp_ratio" := VFloat 4.0;
                       "mlp_dim" := VInt 1000]} (VInt 1000))
      as (o & Ho & Hm & _); [reflexivity | discriminate |].
    exists o. split; [exact Ho | exact Hm].
Defined.

(** C5, as the claim states it, fails: [5 * 1.75] is [8.75], the
    constructor stores 8 and rounding to nearest gives 9. *)
Lemma mlp_dim_is_not_rounded :
  ∃ o, SAMHQVisionConfig.__init__
         {["hidden_size" := VInt 5; "mlp_ratio" := VFloat 1.75]} = Returns o
       ∧ attrs o !! "mlp_dim" = Some (VInt 8)
       ∧ mlp_dim_by_round (VInt 5) (VFloat 1.75) = Returns (VInt 9).
Proof. eexists. split; [reflexivity|]. split; reflexivity. Qed.

(** C5, as amended.  Without a supplied [mlp_dim], for an integer
    [hidden_size] and a float [mlp_ratio] whose product is finite, the
    instance stores the product truncated toward zero; this equals
    [round(hidden_size * mlp_ratio)] exactly when the fraction of the
    product is below one half, or is one half next to an even integer
    part. *)
Theorem mlp_dim_is_round_iff_fraction_rounds_down
    (kw : dict) (h : Z) (r x : float) (n : Z) :
  arg kw "mlp_dim" VNone = VNone →
  arg kw "hidden_size" (VInt 768) = VInt h →
  arg kw "mlp_ratio" (VFloat 4.0) = VFloat r →
  float_of_int h = Returns x →
  float_trunc (x * r) = Returns n →
  ∃ o m, SAMHQVisionConfig.__init__ kw = Returns o
         ∧ attrs o !! "mlp_dim" = Some (VInt n)
         ∧ truncation_of (x * r) n
         ∧ mlp_dim_by_round (VInt h) (VFloat r) = Returns (VInt m)
         ∧ (n = m ↔ fraction_rounds_down (x * r) = true).
Proof.
  intros Hnone Hh Hr Hx Hn.
  destruct (float_trunc_vs_round _ _ Hn) as (m & Hm & Hiff).
  destruct (proj2 (init_derived_mlp_dim kw Hnone (VInt n))) as (o & Ho & Hd).
  { rewrite Hh, Hr. apply int_of_product_returns. eauto. }
  exists o, m. split; [exact Ho|]. split; [exact Hd|].
  split; [exact (float_trunc_truncates _ _ Hn)|].
  split; [|exact Hiff].
  unfold mlp_dim_by_round. rewrite py_mul_int_float, Hx.
  cbn [mbind outcome_bind py_round]. rewrite Hm.
  reflexivity.
Qed.

Lemma mlp_dim_is_round_iff_fraction_rounds_down_witness :
  ∃ o m, SAMHQVisionConfig.__init__
           {["hidden_size" := VInt 5; "mlp_ratio" := VFloat 1.75]} = Returns o
         ∧ attrs o !! "mlp_dim" = Some (VInt 8)
         ∧ mlp_dim_by_round (VInt 5) (VFloat 1.75) = Returns (VInt m)
         ∧ (8 = m ↔ fraction_rounds_down (5 * 1.75) = true).
Proof.
  destruct (mlp_dim_is_round_iff_fraction_rounds_down
              {["hidden_size" := VInt 5; "mlp_ratio" := VFloat 1.75]}
              5 1.75 5 8)
    as (o & m & Ho & Hd & _ & Hm & Hiff); try reflexivity.
  exists o, m. auto.
Defined.

(** ** Every constructor yields a fully defaulted instance *)

Lemma prompt_encoder_fully_defaulted (d : dict) (o : obj) :
  SAMHQPromptEncoderConfig.__init__ d = Returns o →
  fully_defaulted SAMHQPromptEncoderConfig d o.
Proof.
  unfold SAMHQPromptEncoderConfig.__init__.
  cbn [mbind outcome_bind PretrainedConfig.__init__].
  destruct (py_floordiv _ _) as [q| |]; cbn [mbind outcome_bind];
    try discriminate.
  intros Ho. apply Returns_inj in Ho. subst o.
  split; [reflexivity|]. split; [assigned_all | present_all].
Qed.

Lemma mask_decoder_fully_defaulted (d : dict) (o : obj) :
  SAMHQMaskDecoderConfig.__init__ d = Returns o →
  fully_defaulted SAMHQMaskDecoderConfig d o.
Proof.
  unfold SAMHQMaskDecoderConfig.__init__.
  cbn [mbind outcome_bind PretrainedConfig.__init__].
  intros Ho. apply Returns_inj in Ho. subst o.
  split; [reflexivity|]. split; [assigned_all | present_all].
Qed.

Lemma vision_fully_defaulted (d : dict) (o : obj) :
  SAMHQVisionConfig.__init__ d = Returns o →
  fully_defaulted SAMHQVisionConfig d o.
Proof.
  unfold SAMHQVisionConfig.__init__.
  cbn [mbind outcome_bind PretrainedConfig.__init__].
  destruct (if is_None _ then _ else _) as [m| |]; cbn [mbind outcome_bind];
    try discriminate.
  intros Ho. apply Returns_inj in Ho. subst o.
  split; [reflexivity|]. split; [assigned_all | present_all].
Qed.

(** ** Rebuilding an instance from its own dictionary *)

Lemma py_int_not_None (p v : pyval) : py_int p = Returns v → v ≠ VNone.
Proof.
  destruct p as [|b|z|f|t|l]; cbn [py_int]; try discriminate.
  - intros [= <-]. discriminate.
  - intros [= <-]. discriminate.
  - destruct (float_trunc f); cbn [mbind outcome_bind];
      try discriminate.
    intros [= <-]. discriminate.
Qed.

(** A constructed vision configuration never holds [None] as [mlp_dim]. *)
Lemma vision_mlp_dim_not_None (d : dict) (o : obj) :
  SAMHQVisionConfig.__init__ d = Returns o →
  attrs o !! "mlp_dim" ≠ Some VNone.
Proof.
  unfold SAMHQVisionConfig.__init__.
  cbn [mbind outcome_bind PretrainedConfig.__init__].
  destruct (is_None (arg d "mlp_dim" VNone)) eqn:Hnone.
  - destruct (py_mul _ _) as [p| |]; cbn [mbind outcome_bind];
      try discriminate.
    destruct (py_int p) as [m| |] eqn:Hm; cbn [mbind outcome_bind];
      try discriminate.
    intros Ho. apply Returns_inj in Ho. subst o. cbn [attrs].
    rewrite lookup_insert_eq. intros [= ->].
    exact (py_int_not_None _ _ Hm eq_refl).
  - cbn [mbind outcome_bind].
    intros Ho. apply Returns_inj in Ho. subst o. cbn [attrs].
    rewrite lookup_insert_eq. intros [= Heq].
    rewrite Heq in Hnone. discriminate.
Qed.

(** The dictionary of a vision configuration that has all its attributes,
    [mlp_dim] other than [None], builds that same configuration again. *)
Lemma vision_init_to_dict (o : obj) :
  class_of o = SAMHQVisionConfig →
  Forall (λ name, is_Some (attrs o !! name)) SAMHQVisionConfig.params →
  attrs o !! "mlp_dim" ≠ Some VNone →
  SAMHQVisionConfig.__init__ (PretrainedConfig.to_dict o) = Returns o.
Proof.
  destruct o as [c d]. cbn [class_of attrs PretrainedConfig.to_dict].
  intros -> Hkeys Hnone. unfold SAMHQVisionConfig.params in Hkeys.
  keys_of Hkeys. clear Hkeys.
  unfold SAMHQVisionConfig.__init__, arg.
  repeat match goal with
         | H : d !! _ = Some _ |- _ => rewrite !H; revert H
         end.
  intros.
  cbn [default from_option id mbind outcome_bind PretrainedConfig.__init__].
  match goal with
  | |- context [is_None ?v] =>
      assert (is_None v = false) as ->
        by (destruct v; first [reflexivity | congruence])
  end.
  cbn [mbind outcome_bind]. do 2 f_equal.
  apply map_eq. intros i.
  repeat (rewrite lookup_insert; case_decide;
          [subst i; symmetry; assumption|]).
  unfold rest, SAMHQVisionConfig.params. cbn [foldr].
  rewrite !lookup_delete_ne by assumption. reflexivity.
Qed.

Lemma vision_has_all_attributes (d : dict) (o : obj) :
  SAMHQVisionConfig.__init__ d = Returns o →
  Forall (λ name, is_Some (attrs o !! name)) SAMHQVisionConfig.params.
Proof.
  unfold SAMHQVisionConfig.__init__.
  cbn [mbind outcome_bind PretrainedConfig.__init__].
  destruct (if is_None _ then _ else _) as [m| |]; cbn [mbind outcome_bind];
    try discriminate.
  intros Ho. apply Returns_inj in Ho. subst o.
  unfold SAMHQVisionConfig.params. present_all.
Qed.

(** A constructed vision configuration is rebuilt from its dictionary. *)
Lemma vision_round_trip (d : dict) (o : obj) :
  SAMHQVisionConfig.__init__ d = Returns o →
  SAMHQVisionConfig.__init__ (PretrainedConfig.to_dict o) = Returns o.
Proof.
  intros Ho. apply vision_init_to_dict.
  - apply (vision_fully_defaulted d o Ho).
  - apply (vision_has_all_attributes d o Ho).
  - apply (vision_mlp_dim_not_None d o Ho).
Qed.

Lemma mask_decoder_init_to_dict (o : obj) :
  class_of o = SAMHQMaskDecoderConfig →
  Forall (λ name, is_Some (attrs o !! name)) SAMHQMaskDecoderConfig.params →
  SAMHQMaskDecoderConfig.__init__ (PretrainedConfig.to_dict o) = Returns o.
Proof.
  destruct o as [c d]. cbn [class_of attrs PretrainedConfig.to_dict].
  intros -> Hkeys. unfold SAMHQMaskDecoderConfig.params in Hkeys.
  keys_of Hkeys. clear Hkeys.
  unfold SAMHQMaskDecoderConfig.__init__, arg.
  repeat match goal with
         | H : d !! _ = Some _ |- _ => rewrite !H; revert H
         end.
  intros.
  cbn [default from_option id mbind outcome_bind PretrainedConfig.__init__].
  do 2 f_equal.
  apply map_eq. intros i.
  repeat (rewrite lookup_insert; case_decide;
          [subst i; symmetry; assumption|]).
  unfold rest, SAMHQMaskDecoderConfig.params. cbn [foldr].
  rewrite !lookup_delete_ne by assumption. reflexivity.
Qed.

Lemma prompt_encoder_init_to_dict (o : obj) (q : pyval) :
  class_of o = SAMHQPromptEncoderConfig →
  Forall (λ name, is_Some (attrs o !! name)) SAMHQPromptEncoderConfig.params →
  py_floordiv (arg (attrs o) "image_size" (VInt 1024))
              (arg (attrs o) "patch_size" (VInt 16)) = Returns q →
  attrs o !! "image_embedding_size" = Some q →
  SAMHQPromptEncoderConfig.__init__ (PretrainedConfig.to_dict o) = Returns o.
Proof.
  destruct o as [c d]. cbn [class_of attrs PretrainedConfig.to_dict].
  intros -> Hkeys Hq Hstored. unfold SAMHQPromptEncoderConfig.params in Hkeys.
  keys_of Hkeys. clear Hkeys.
  unfold SAMHQPromptEncoderConfig.__init__. rewrite Hq.
  unfold arg.
  repeat match goal with
         | H : d !! _ = Some _ |- _ => rewrite !H; revert H
         end.
  intros.
  cbn [default from_option id mbind outcome_bind PretrainedConfig.__init__].
  do 2 f_equal.
  apply map_eq. intros i.
  repeat (rewrite lookup_insert; case_decide;
          [subst i; symmetry; assumption|]).
  unfold rest, SAMHQPromptEncoderConfig.params. cbn [foldr].
  rewrite !lookup_delete_ne by assumption. reflexivity.
Qed.

(** A constructed mask decoder configuration is rebuilt from its
    dictionary. *)
Lemma mask_decoder_round_trip (d : dict) (o : obj) :
  SAMHQMaskDecoderConfig.__init__ d = Returns o →
  SAMHQMaskDecoderConfig.__init__ (PretrainedConfig.to_dict o) = Returns o.
Proof.
  intros Ho. apply mask_decoder_init_to_dict.
  - apply (mask_decoder_fully_defaulted d o Ho).
  - revert Ho. unfold SAMHQMaskDecoderConfig.__init__.
    cbn [mbind outcome_bind PretrainedConfig.__init__].
    intros Ho. apply Returns_inj in Ho. subst o.
    unfold SAMHQMaskDecoderConfig.params. present_all.
Qed.

(** So is a constructed prompt encoder configuration: the quotient is
    computed again from the same two sizes. *)
Lemma prompt_encoder_round_trip (d : dict) (o : obj) :
  SAMHQPromptEncoderConfig.__init__ d = Returns o →
  SAMHQPromptEncoderConfig.__init__ (PretrainedConfig.to_dict o) = Returns o.
Proof.
  intros Ho.
  pose proof (prompt_encoder_fully_defaulted d o Ho) as [Hclass _].
  revert Ho. unfold SAMHQPromptEncoderConfig.__init__ at 1.
  cbn [mbind outcome_bind PretrainedConfig.__init__].
  destruct (py_floordiv _ _) as [q| |] eqn:Hq; cbn [mbind outcome_bind];
    try discriminate.
  intros Ho. apply Returns_inj in Ho. subst o.
  apply (prompt_encoder_init_to_dict _ q).
  - reflexivity.
  - unfold SAMHQPromptEncoderConfig.params. present_all.
  - cbn [attrs].
    rewrite (arg_lookup _ "image_size" _ (arg d "image_size" (VInt 1024)))
      by (read_attr; reflexivity).
    rewrite (arg_lookup _ "patch_size" _ (arg d "patch_size" (VInt 16)))
      by (read_attr; reflexivity).
    exact Hq.
  - cbn [attrs]. read_attr. reflexivity.
Qed.

(** ** SAMHQConfig *)

Lemma flatten_instance (c : class) (o : obj) :
  class_of o = c →
  flatten c (or_empty (Object o)) = Dict (PretrainedConfig.to_dict o).
Proof.
  intros Hc. cbn [or_empty flatten isinstance].
  rewrite bool_decide_eq_true_2 by exact Hc. reflexivity.
Qed.

Lemma prompt_encoder_default_returns :
  ∃ o, SAMHQPromptEncoderConfig.__init__ ∅ = Returns o.
Proof. eexists. reflexivity. Qed.

Lemma mask_decoder_returns (d : dict) :
  ∃ o, SAMHQMaskDecoderConfig.__init__ d = Returns o.
Proof. eexists. reflexivity. Qed.

(** What [SAMHQConfig.__init__] does, one sub-configuration after the
    other: when it returns, each normalised argument was a mapping and the
    matching constructor returned the instance that is stored. *)
Lemma config_init_returns (kw cfg : gmap string value) :
  SAMHQConfig.__init__ kw = Returns cfg →
  ∃ dv dp dm v p m,
    flatten SAMHQVisionConfig
      (or_empty (default (Plain VNone) (kw !! "vision_config"))) = Dict dv
    ∧ flatten SAMHQPromptEncoderConfig
        (or_empty (default (Plain VNone) (kw !! "prompt_encoder_config")))
      = Dict dp
    ∧ flatten SAMHQMaskDecoderConfig
        (or_empty (default (Plain VNone) (kw !! "mask_decoder_config")))
      = Dict dm
    ∧ SAMHQVisionConfig.__init__ dv = Returns v
    ∧ SAMHQPromptEncoderConfig.__init__ dp = Returns p
    ∧ SAMHQMaskDecoderConfig.__init__ dm = Returns m
    ∧ cfg !! "vision_config" = Some (Object v)
    ∧ cfg !! "prompt_encoder_config" = Some (Object p)
    ∧ cfg !! "mask_decoder_config" = Some (Object m).
Proof.
  unfold SAMHQConfig.__init__.
  cbn [mbind outcome_bind PretrainedConfig.__init__].
  destruct (flatten SAMHQVisionConfig _) as [?|dv|?];
    cbn [call_unpack mbind outcome_bind]; try discriminate.
  destruct (SAMHQVisionConfig.__init__ dv) as [v| |] eqn:Hv;
    cbn [mbind outcome_bind]; try discriminate.
  destruct (flatten SAMHQPromptEncoderConfig _) as [?|dp|?];
    cbn [call_unpack mbind outcome_bind]; try discriminate.
  destruct (SAMHQPromptEncoderConfig.__init__ dp) as [p| |] eqn:Hp;
    cbn [mbind outcome_bind]; try discriminate.
  destruct (flatten SAMHQMaskDecoderConfig _) as [?|dm|?];
    cbn [call_unpack mbind outcome_bind]; try discriminate.
  destruct (SAMHQMaskDecoderConfig.__init__ dm) as [m| |] eqn:Hm;
    cbn [mbind outcome_bind]; try discriminate.
  intros Hcfg. apply Returns_inj in Hcfg. subst cfg.
  exists dv, dp, dm, v, p, m.
  repeat split; try assumption; read_attr; reflexivity.
Qed.

(** ** SAMHQConfig on its documented arguments *)

Lemma constructor_of_class (c : class) (d : dict) (o : obj) :
  constructor_of c d = Returns o → class_of o = c.
Proof.
  destruct c; cbn [constructor_of]; intros Ho.
  - apply (prompt_encoder_fully_defaulted d o Ho).
  - apply (mask_decoder_fully_defaulted d o Ho).
  - apply (vision_fully_defaulted d o Ho).
Qed.

Lemma constructor_of_round_trip (c : class) (d : dict) (o : obj) :
  constructor_of c d = Returns o →
  constructor_of c (PretrainedConfig.to_dict o) = Returns o.
Proof.
  destruct c; cbn [constructor_of].
  - apply prompt_encoder_round_trip.
  - apply mask_decoder_round_trip.
  - apply vision_round_trip.
Qed.

(** A documented argument normalises to a mapping that the constructor of
    its class accepts. *)
Lemma documented_argument_normalises (c : class) (a : value) :
  documented_argument c a →
  ∃ d o, flatten c (or_empty a) = Dict d ∧ constructor_of c d = Returns o.
Proof.
  intros [->|(d & o & Ho & [->| ->])].
  - exists ∅. cbn [or_empty flatten].
    destruct c; eexists; (split; [reflexivity|]); reflexivity.
  - exists (PretrainedConfig.to_dict o), o. split.
    + apply flatten_instance, (constructor_of_class c d o Ho).
    + apply (constructor_of_round_trip c d o Ho).
  - exists d, o. split; [reflexivity | exact Ho].
Qed.

Lemma config_init_total (kw : gmap string value) :
  documented_argument SAMHQVisionConfig
    (default (Plain VNone) (kw !! "vision_config")) →
  documented_argument SAMHQPromptEncoderConfig
    (default (Plain VNone) (kw !! "prompt_encoder_config")) →
  documented_argument SAMHQMaskDecoderConfig
    (default (Plain VNone) (kw !! "mask_decoder_config")) →
  ∃ cfg, SAMHQConfig.__init__ kw = Returns cfg.
Proof.
  intros Hv Hp Hm.
  apply documented_argument_normalises in Hv as (dv & v & Fv & Hv).
  apply documented_argument_normalises in Hp as (dp & p & Fp & Hp).
  apply documented_argument_normalises in Hm as (dm & m & Fm & Hm).
  cbn [constructor_of] in Hv, Hp, Hm.
  unfold SAMHQConfig.__init__.
  cbn [mbind outcome_bind PretrainedConfig.__init__].
  rewrite Fv, Fp, Fm. cbn [call_unpack].
  rewrite Hv. cbn [mbind outcome_bind].
  rewrite Hp. cbn [mbind outcome_bind].
  rewrite Hm. cbn [mbind outcome_bind].
  eexists. reflexivity.
Qed.

(** C6.  When [SAMHQConfig.__init__] returns, whatever its arguments
    were, each of [vision_config], [prompt_encoder_config] and
    [mask_decoder_config] holds an instance of its class (not [None], not
    a mapping), made from the mapping the argument stands for: every
    stored parameter comes from that mapping or from its default, and the
    computed attributes are present.  And it does return when each
    argument is omitted, is an instance that its constructor returned, or
    is a mapping that its constructor accepts. *)
Theorem sub_configs_are_instances (kw : gmap string value) :
  (∀ cfg,
     SAMHQConfig.__init__ kw = Returns cfg →
     normalized SAMHQVisionConfig
       (default (Plain VNone) (kw !! "vision_config"))
       (cfg !! "vision_config")
     ∧ normalized SAMHQPromptEncoderConfig
         (default (Plain VNone) (kw !! "prompt_encoder_config"))
         (cfg !! "prompt_encoder_config")
     ∧ normalized SAMHQMaskDecoderConfig
         (default (Plain VNone) (kw !! "mask_decoder_config"))
         (cfg !! "mask_decoder_config"))
  ∧ (documented_argument SAMHQVisionConfig
       (default (Plain VNone) (kw !! "vision_config")) →
     documented_argument SAMHQPromptEncoderConfig
       (default (Plain VNone) (kw !! "prompt_encoder_config")) →
     documented_argument SAMHQMaskDecoderConfig
       (default (Plain VNone) (kw !! "mask_decoder_config")) →
     ∃ cfg, SAMHQConfig.__init__ kw = Returns cfg).
Proof.
  split; [|apply config_init_total].
  intros cfg Hcfg.
  destruct (config_init_returns kw cfg Hcfg)
    as (dv & dp & dm & v & p & m & Fv & Fp & Fm & Hv & Hp & Hm & Cv & Cp & Cm).
  split; [|split].
  - exists dv, v. auto using vision_fully_defaulted.
  - exists dp, p. auto using prompt_encoder_fully_defaulted.
  - exists dm, m. auto using mask_decoder_fully_defaulted.
Qed.

Lemma sub_configs_are_instances_witness :
  ∃ p cfg,
    SAMHQPromptEncoderConfig.__init__ {["patch_size" := VInt 8]} = Returns p
    ∧ SAMHQConfig.__init__
        {["prompt_encoder_config" := Object p;
          "mask_decoder_config" := Dict {["mlp_dim" := VInt 1024]}]}
      = Returns cfg
    ∧ normalized SAMHQVisionConfig (Plain VNone) (cfg !! "vision_config")
    ∧ normalized SAMHQPromptEncoderConfig (Object p)
        (cfg !! "prompt_encoder_config")
    ∧ normalized SAMHQMaskDecoderConfig (Dict {["mlp_dim" := VInt 1024]})
        (cfg !! "mask_decoder_config").
Proof.
  eexists.
  lazymatch goal with
  | |- ∃ cfg, _ = Returns ?p ∧ _ =>
      destruct (sub_configs_are_instances
                  {["prompt_encoder_config" := Object p;
                    "mask_decoder_config" :=
                      Dict {["mlp_dim" := VInt 1024]}]})
        as [Hinst Hreturns]
  end.
  destruct Hreturns as [cfg Hcfg].
  - left. reflexivity.
  - right. exists {["patch_size" := VInt 8]}. eexists.
    split; [reflexivity|]. left. reflexivity.
  - right. exists {["mlp_dim" := VInt 1024]}. eexists.
    split; [reflexivity|]. right. reflexivity.
  - exists cfg. split; [reflexivity|]. split; [exact Hcfg|].
    exact (Hinst cfg Hcfg).
Defined.

(** C7.  A vision configuration that its constructor returned, passed as
    [vision_config], is found again attribute for attribute in the
    [vision_config] of every [SAMHQConfig] built from it; and with the
    other two arguments omitted the [SAMHQConfig] is built. *)
Theorem vision_instance_is_preserved
    (d : dict) (o : obj) (kw : gmap string value) :
  SAMHQVisionConfig.__init__ d = Returns o →
  kw !! "vision_config" = Some (Object o) →
  (∀ cfg, SAMHQConfig.__init__ kw = Returns cfg →
     ∃ o', cfg !! "vision_config" = Some (Object o')
           ∧ class_of o' = SAMHQVisionConfig
           ∧ ∀ name, attrs o' !! name = attrs o !! name)
  ∧ (∃ cfg o', SAMHQConfig.__init__ {["vision_config" := Object o]}
               = Returns cfg
               ∧ cfg !! "vision_config" = Some (Object o')
               ∧ ∀ name, attrs o' !! name = attrs o !! name).
Proof.
  intros Ho Hkw.
  pose proof (vision_round_trip d o Ho) as Hround.
  assert (Hclass : class_of o = SAMHQVisionConfig)
    by apply (vision_fully_defaulted d o Ho).
  split.
  - intros cfg Hcfg.
    destruct (config_init_returns kw cfg Hcfg)
      as (dv & _ & _ & v & _ & _ & Fv & _ & _ & Hv & _ & _ & Cv & _).
    rewrite Hkw in Fv. cbn [default from_option id] in Fv.
    rewrite (flatten_instance _ _ Hclass) in Fv.
    injection Fv as <-. rewrite Hround in Hv.
    apply Returns_inj in Hv. subst v.
    exists o. auto.
  - unfold SAMHQConfig.__init__.
    rewrite lookup_singleton_eq.
    rewrite !lookup_singleton_ne by discriminate.
    cbn [default from_option id mbind outcome_bind PretrainedConfig.__init__].
    rewrite (flatten_instance _ _ Hclass).
    cbn [call_unpack]. rewrite Hround. cbn [mbind outcome_bind].
    cbn [or_empty flatten call_unpack].
    destruct prompt_encoder_default_returns as [p ->].
    destruct (mask_decoder_returns ∅) as [m ->].
    cbn [mbind outcome_bind].
    eexists _, o. split; [reflexivity|].
    split; [read_attr; reflexivity | reflexivity].
Qed.

Lemma vision_instance_is_preserved_witness :
  ∃ o cfg o',
    SAMHQVisionConfig.__init__ {["window_size" := VInt 7]} = Returns o
    ∧ attrs o !! "window_size" = Some (VInt 7)
    ∧ SAMHQConfig.__init__ {["vision_config" := Object o]} = Returns cfg
    ∧ cfg !! "vision_config" = Some (Object o')
    ∧ attrs o' !! "window_size" = Some (VInt 7).
Proof.
  eexists.
  edestruct (vision_instance_is_preserved {["window_size" := VInt 7]})
    as [_ (cfg & o' & Hcfg & Hv & Hsame)];
    [reflexivity | apply lookup_singleton_eq |].
  exists cfg, o'. split; [reflexivity|]. split; [reflexivity|].
  split; [exact Hcfg|]. split; [exact Hv|].
  rewrite Hsame. reflexivity.
Defined.

(** C8.  [SAMHQConfig()] holds the three instances that the three
    sub-configuration constructors return when they are called without
    arguments. *)
Theorem default_config_has_default_sub_configs :
  ∃ cfg v p m,
    SAMHQConfig.__init__ ∅ = Returns cfg
    ∧ SAMHQVisionConfig.__init__ ∅ = Returns v
    ∧ SAMHQPromptEncoderConfig.__init__ ∅ = Returns p
    ∧ SAMHQMaskDecoderConfig.__init__ ∅ = Returns m
    ∧ cfg !! "vision_config" = Some (Object v)
    ∧ cfg !! "prompt_encoder_config" = Some (Object p)
    ∧ cfg !! "mask_decoder_config" = Some (Object m).
Proof.
  do 4 eexists. split; [reflexivity|].
  repeat split; reflexivity.
Qed.

(** ** Two slips of the source *)

(** C2.  The mask decoder has no parameter and no attribute named
    [attention_downsample_rate]: the name in the signature and in the
    assignment is [attention_downsam_hqple_rate], with default 2.  A
    keyword [attention_downsample_rate] is not bound to it; it is handed to
    the base class with the other extra options, and without it the
    instance has no such attribute. *)
Theorem attention_downsample_rate_is_misnamed (kw : dict) :
  (∃ o, SAMHQMaskDecoderConfig.__init__ kw = Returns o
        ∧ attrs o !! "attention_downsam_hqple_rate"
          = Some (arg kw "attention_downsam_hqple_rate" (VInt 2))
        ∧ attrs o !! "attention_downsample_rate"
          = kw !! "attention_downsample_rate")
  ∧ (∃ o, SAMHQMaskDecoderConfig.__init__ ∅ = Returns o
          ∧ attrs o !! "attention_downsam_hqple_rate" = Some (VInt 2)
          ∧ attrs o !! "attention_downsample_rate" = None)
  ∧ (∃ o, SAMHQMaskDecoderConfig.__init__
            {["attention_downsample_rate" := VInt 4]} = Returns o
          ∧ attrs o !! "attention_downsam_hqple_rate" = Some (VInt 2)).
Proof.
  split; [|split].
  - eexists. split; [reflexivity|]. cbn [attrs].
    split; [read_attr; reflexivity|].
    read_attr. unfold rest, SAMHQMaskDecoderConfig.params. cbn [foldr].
    rewrite !lookup_delete_ne by discriminate. reflexivity.
  - eexists. split; [reflexivity|]. split; reflexivity.
  - eexists. split; reflexivity.
Qed.

(** A call that omits [global_attn_indexes] stores the reference to the
    list made for the default, not a new list. *)
Lemma omitted_global_attn_indexes (kw : dict) (o : obj) :
  kw !! "global_attn_indexes" = None →
  SAMHQVisionConfig.__init__ kw = Returns o →
  attrs o !! "global_attn_indexes"
  = Some (VList global_attn_indexes_default).
Proof.
  intros Hkw Ho.
  destruct (vision_fully_defaulted kw o Ho) as (_ & Hassigned & _).
  cbn [defaults_of] in Hassigned.
  rewrite Forall_forall in Hassigned.
  rewrite (Hassigned ("global_attn_indexes",
                      VList global_attn_indexes_default)).
  - cbn [fst snd]. unfold arg. rewrite Hkw. reflexivity.
  - repeat (apply list_elem_of_here || apply list_elem_of_further).
Qed.

(** C9.  Two vision configurations built by separate calls that omit
    [global_attn_indexes] hold the same list object, the one made for the
    default when the constructor was defined: appending to the list of the
    first changes the list read through the second. *)
Theorem default_global_attn_indexes_is_shared :
  ∃ a b l,
    SAMHQVisionConfig.__init__ ∅ = Returns a
    ∧ SAMHQVisionConfig.__init__ {["window_size" := VInt 7]} = Returns b
    ∧ attrs a !! "global_attn_indexes" = Some (VList l)
    ∧ attrs b !! "global_attn_indexes" = Some (VList l)
    ∧ read_list b "global_attn_indexes" module_heap
      = Some [VInt 2; VInt 5; VInt 8; VInt 11]
    ∧ read_list b "global_attn_indexes"
        (list_append l (VInt 14) module_heap)
      = Some [VInt 2; VInt 5; VInt 8; VInt 11; VInt 14].
Proof.
  do 3 eexists. split; [reflexivity|]. split; [reflexivity|].
  split; [reflexivity|]. repeat split; reflexivity.
Qed.

(** * Further properties of the constructors *)

(** ** Small facts *)

Lemma arg_insert_ne (kw : dict) (key name : string) (v dflt : pyval) :
  key ≠ name → arg (<[key := v]> kw) name dflt = arg kw name dflt.
Proof. intros Hne. unfold arg. rewrite lookup_insert_ne by exact Hne. reflexivity. Qed.

Lemma py_int_returns_int (p v : pyval) :
  py_int p = Returns v → ∃ n, v = VInt n.
Proof.
  destruct p as [|b|z|f|t|l]; cbn [py_int]; try discriminate.
  - intros [= <-]. eauto.
  - intros [= <-]. eauto.
  - destruct (float_trunc f); cbn [mbind outcome_bind]; try discriminate.
    intros [= <-]. eauto.
Qed.

Lemma py_mul_None (a b : pyval) :
  a = VNone ∨ b = VNone → py_mul a b = Raises TypeError.
Proof. intros [-> | ->]; [destruct b | destruct a]; reflexivity. Qed.

Lemma py_floordiv_not_numbers (a b : pyval) :
  is_number a && is_number b = false → py_floordiv a b = Raises TypeError.
Proof.
  unfold py_floordiv. intros Hnum. rewrite Hnum.
  destruct a, b; try reflexivity; discriminate.
Qed.

(** ** SAMHQPromptEncoderConfig *)

(** X1.  For a positive [patch_size], dividing [image_size] or not, the
    instance is built and [image_embedding_size] counts the whole patches
    that fit: the part of the image left over is shorter than one patch,
    and an image shorter than one patch gives 0. *)
Theorem image_embedding_size_counts_whole_patches
    (kw : dict) (image patch : Z) :
  arg kw "image_size" (VInt 1024) = VInt image →
  arg kw "patch_size" (VInt 16) = VInt patch →
  0 < patch →
  ∃ o q, SAMHQPromptEncoderConfig.__init__ kw = Returns o
         ∧ attrs o !! "image_embedding_size" = Some (VInt q)
         ∧ q * patch ≤ image < (q + 1) * patch
         ∧ (0 ≤ image < patch → q = 0).
Proof.
  intros Hi Hp Hpos.
  destruct (init_nonzero_patch kw image patch Hi Hp) as (o & Ho & _ & _ & _ & He);
    [lia|].
  exists o, (image / patch). split; [exact Ho|]. split; [exact He|].
  pose proof (Z.div_mod image patch ltac:(lia)) as Hdm.
  pose proof (Z.mod_pos_bound image patch Hpos) as Hb.
  split; [nia|]. intros Hsmall. apply Z.div_small. exact Hsmall.
Qed.

Lemma image_embedding_size_counts_whole_patches_witness :
  ∃ o, SAMHQPromptEncoderConfig.__init__ {["image_size" := VInt 1000]}
       = Returns o
       ∧ attrs o !! "image_embedding_size" = Some (VInt 62).
Proof.
  destruct (image_embedding_size_counts_whole_patches
              {["image_size" := VInt 1000]} 1000 16)
    as (o & q & Ho & He & Hq & _); [reflexivity | reflexivity | lia |].
  exists o. split; [exact Ho|].
  replace 62 with q by lia. exact He.
Defined.

(** X2.  [image_embedding_size] cannot be supplied: a keyword of that
    name goes to the base class with the extra options, and the assignment
    that follows overwrites it with the quotient of the two sizes. *)
Theorem image_embedding_size_keyword_is_overwritten
    (kw : dict) (v : pyval) (image patch : Z) :
  arg kw "image_size" (VInt 1024) = VInt image →
  arg kw "patch_size" (VInt 16) = VInt patch →
  patch ≠ 0 →
  ∃ o, SAMHQPromptEncoderConfig.__init__ (<["image_embedding_size" := v]> kw)
       = Returns o
       ∧ attrs o !! "image_embedding_size" = Some (VInt (image / patch)).
Proof.
  intros Hi Hp Hne.
  destruct (init_nonzero_patch (<["image_embedding_size" := v]> kw) image patch)
    as (o & Ho & _ & _ & _ & He).
  - rewrite arg_insert_ne by discriminate. exact Hi.
  - rewrite arg_insert_ne by discriminate. exact Hp.
  - exact Hne.
  - exists o. split; [exact Ho | exact He].
Qed.

Lemma image_embedding_size_keyword_is_overwritten_witness :
  ∃ o, SAMHQPromptEncoderConfig.__init__ {["image_embedding_size" := VInt 5]}
       = Returns o
       ∧ attrs o !! "image_embedding_size" = Some (VInt 64).
Proof.
  destruct (image_embedding_size_keyword_is_overwritten ∅ (VInt 5) 1024 16)
    as (o & Ho & He); [reflexivity | reflexivity | lia |].
  exists o. split; [exact Ho | exact He].
Defined.

(** X3.  When [image_size] or [patch_size] is no number ([None], a [str],
    a list), the floor division raises [TypeError] and no instance is
    built. *)
Theorem sizes_that_are_no_numbers_raise (kw : dict) :
  is_number (arg kw "image_size" (VInt 1024))
  && is_number (arg kw "patch_size" (VInt 16)) = false →
  SAMHQPromptEncoderConfig.__init__ kw = Raises TypeError.
Proof.
  intros Hnum. unfold SAMHQPromptEncoderConfig.__init__.
  rewrite (py_floordiv_not_numbers _ _ Hnum). reflexivity.
Qed.

Lemma sizes_that_are_no_numbers_raise_witness :
  SAMHQPromptEncoderConfig.__init__ {["patch_size" := VNone]}
  = Raises TypeError
  ∧ SAMHQPromptEncoderConfig.__init__ {["image_size" := VStr "1024"]}
    = Raises TypeError.
Proof.
  split.
  - apply (sizes_that_are_no_numbers_raise {["patch_size" := VNone]}).
    reflexivity.
  - apply (sizes_that_are_no_numbers_raise {["image_size" := VStr "1024"]}).
    reflexivity.
Defined.

(** ** SAMHQMaskDecoderConfig *)


(** ** SAMHQVisionConfig *)

(** X5.  A vision configuration that was built never holds [None] as
    [mlp_dim], and when [mlp_dim] was not supplied it holds an [int]. *)
Theorem mlp_dim_is_never_None (kw : dict) (o : obj) :
  SAMHQVisionConfig.__init__ kw = Returns o →
  ∃ v, attrs o !! "mlp_dim" = Some v
       ∧ v ≠ VNone
       ∧ (arg kw "mlp_dim" VNone = VNone → ∃ n, v = VInt n).
Proof.
  intros Ho.
  destruct (vision_fully_defaulted kw o Ho) as (_ & _ & Hd).
  cbn [derived_of] in Hd. apply Forall_cons in Hd as [[v Hv] _].
  exists v. split; [exact Hv|]. split.
  - intros ->. exact (vision_mlp_dim_not_None kw o Ho Hv).
  - intros Hnone.
    assert (Hint : py_mul (arg kw "hidden_size" (VInt 768))
                          (arg kw "mlp_ratio" (VFloat 4.0)) ≫= py_int
                   = Returns v)
      by (apply (init_derived_mlp_dim kw Hnone v); eauto).
    destruct (py_mul _ _) as [p| |]; cbn [mbind outcome_bind] in Hint;
      try discriminate.
    exact (py_int_returns_int p v Hint).
Qed.

Lemma mlp_dim_is_never_None_witness :
  ∃ o v, SAMHQVisionConfig.__init__ {["mlp_ratio" := VFloat 2.5]} = Returns o
         ∧ attrs o !! "mlp_dim" = Some v
         ∧ v ≠ VNone.
Proof.
  eexists.
  edestruct (mlp_dim_is_never_None {["mlp_ratio" := VFloat 2.5]})
    as (v & Hv & Hne & _); [reflexivity|].
  exists v. split; [reflexivity|]. split; [exact Hv | exact Hne].
Defined.

(** X6.  With an integer [mlp_ratio] no float is involved: the derived
    [mlp_dim] is the exact product [hidden_size * mlp_ratio], however
    large. *)
Theorem integer_mlp_ratio_gives_exact_product (kw : dict) (h k : Z) :
  arg kw "mlp_dim" VNone = VNone →
  arg kw "hidden_size" (VInt 768) = VInt h →
  arg kw "mlp_ratio" (VFloat 4.0) = VInt k →
  ∃ o, SAMHQVisionConfig.__init__ kw = Returns o
       ∧ attrs o !! "mlp_dim" = Some (VInt (h * k)).
Proof.
  intros Hnone Hh Hk.
  apply (init_derived_mlp_dim kw Hnone). rewrite Hh, Hk. reflexivity.
Qed.

Lemma integer_mlp_ratio_gives_exact_product_witness :
  ∃ o, SAMHQVisionConfig.__init__
         {["hidden_size" := VInt (2 ^ 60 + 1); "mlp_ratio" := VInt 4]}
       = Returns o
       ∧ attrs o !! "mlp_dim" = Some (VInt (2 ^ 62 + 4)).
Proof.
  apply (integer_mlp_ratio_gives_exact_product
           {["hidden_size" := VInt (2 ^ 60 + 1); "mlp_ratio" := VInt 4]}
           (2 ^ 60 + 1) 4); reflexivity.
Defined.

(** X7.  [None] as [hidden_size] or as [mlp_ratio] is an error exactly
    when [mlp_dim] has to be derived: the product raises [TypeError];
    with a supplied [mlp_dim] the product is never formed and the
    instance is built. *)
Theorem None_factor_raises_unless_mlp_dim_is_given (kw : dict) :
  arg kw "hidden_size" (VInt 768) = VNone
  ∨ arg kw "mlp_ratio" (VFloat 4.0) = VNone →
  (arg kw "mlp_dim" VNone = VNone →
   SAMHQVisionConfig.__init__ kw = Raises TypeError)
  ∧ (arg kw "mlp_dim" VNone ≠ VNone →
     ∃ o, SAMHQVisionConfig.__init__ kw = Returns o
          ∧ attrs o !! "mlp_dim" = Some (arg kw "mlp_dim" VNone)).
Proof.
  intros Hfactor. split.
  - intros Hnone. unfold SAMHQVisionConfig.__init__.
    rewrite Hnone, (py_mul_None _ _ Hfactor). reflexivity.
  - intros Hgiven.
    destruct (init_explicit_mlp_dim kw _ eq_refl Hgiven) as (o & Ho & _ & Hm & _).
    exists o. split; [exact Ho | exact Hm].
Qed.

Lemma None_factor_raises_unless_mlp_dim_is_given_witness :
  SAMHQVisionConfig.__init__ {["mlp_ratio" := VNone]} = Raises TypeError
  ∧ ∃ o, SAMHQVisionConfig.__init__
           {["mlp_ratio" := VNone; "mlp_dim" := VInt 3072]} = Returns o
         ∧ attrs o !! "mlp_dim" = Some (VInt 3072).
Proof.
  split.
  - destruct (None_factor_raises_unless_mlp_dim_is_given
                {["mlp_ratio" := VNone]}) as [Hraises _];
      [right; reflexivity|].
    apply Hraises. reflexivity.
  - destruct (None_factor_raises_unless_mlp_dim_is_given
                {["mlp_ratio" := VNone; "mlp_dim" := VInt 3072]})
      as [_ Hbuilt]; [right; reflexivity|].
    apply Hbuilt. discriminate.
Defined.

(** X8.  [mlp_dim=None] is the same call as leaving [mlp_dim] out: the two
    constructions have the same outcome, attribute for attribute. *)
Theorem explicit_None_mlp_dim_is_omission (kw : dict) :
  kw !! "mlp_dim" = None →
  SAMHQVisionConfig.__init__ (<["mlp_dim" := VNone]> kw)
  = SAMHQVisionConfig.__init__ kw.
Proof.
  intros Hkw. unfold SAMHQVisionConfig.__init__.
  rewrite !arg_insert_ne by discriminate.
  assert (arg (<["mlp_dim" := VNone]> kw) "mlp_dim" VNone = VNone) as ->
    by (unfold arg; rewrite lookup_insert_eq; reflexivity).
  assert (arg kw "mlp_dim" VNone = VNone) as ->
    by (unfold arg; rewrite Hkw; reflexivity).
  assert (rest SAMHQVisionConfig.params (<["mlp_dim" := VNone]> kw)
          = rest SAMHQVisionConfig.params kw) as ->.
  { unfold rest, SAMHQVisionConfig.params. cbn [foldr].
    rewrite delete_insert_eq. reflexivity. }
  reflexivity.
Qed.

Lemma explicit_None_mlp_dim_is_omission_witness :
  SAMHQVisionConfig.__init__ {["mlp_dim" := VNone]}
  = SAMHQVisionConfig.__init__ ∅.
Proof. apply (explicit_None_mlp_dim_is_omission ∅). reflexivity. Defined.

(** ** All three constructors *)

(** X9.  Each constructor is idempotent on what it builds: called again
    with the attribute dictionary of an instance it returned, it returns
    that instance, the computed attribute included. *)
Theorem constructors_rebuild_their_instances (c : class) (d : dict) (o : obj) :
  constructor_of c d = Returns o →
  constructor_of c (attrs o) = Returns o.
Proof.
  intros Ho. change (attrs o) with (PretrainedConfig.to_dict o).
  destruct c; cbn [constructor_of] in *.
  - exact (prompt_encoder_round_trip d o Ho).
  - exact (mask_decoder_round_trip d o Ho).
  - exact (vision_round_trip d o Ho).
Qed.

Lemma constructors_rebuild_their_instances_witness :
  ∃ o, SAMHQPromptEncoderConfig.__init__ {["patch_size" := VInt 8]}
       = Returns o
       ∧ SAMHQPromptEncoderConfig.__init__ (attrs o) = Returns o.
Proof.
  eexists. split; [reflexivity|].
  apply (constructors_rebuild_their_instances
           SAMHQPromptEncoderConfig {["patch_size" := VInt 8]}).
  reflexivity.
Defined.

(** ** The list of global attention indexes *)

(** X10.  A list supplied as [global_attn_indexes] is stored by
    reference: an append to that list object shows through the instance,
    and an append to any other list object, the shared default included,
    does not. *)
Theorem supplied_list_is_stored_by_reference (kw : dict) (o : obj) (l : loc) :
  kw !! "global_attn_indexes" = Some (VList l) →
  SAMHQVisionConfig.__init__ kw = Returns o →
  attrs o !! "global_attn_indexes" = Some (VList l)
  ∧ (∀ (h : heap) (xs : list pyval) (v : pyval),
       h !! l = Some xs →
       read_list o "global_attn_indexes" (list_append l v h)
       = Some (xs ++ [v]))
  ∧ (∀ (h : heap) (l' : loc) (v : pyval),
       l' ≠ l →
       read_list o "global_attn_indexes" (list_append l' v h)
       = read_list o "global_attn_indexes" h).
Proof.
  intros Hkw Ho.
  assert (Hattr : attrs o !! "global_attn_indexes" = Some (VList l)).
  { destruct (vision_fully_defaulted kw o Ho) as (_ & Hassigned & _).
    cbn [defaults_of] in Hassigned. rewrite Forall_forall in Hassigned.
    rewrite (Hassigned ("global_attn_indexes",
                        VList global_attn_indexes_default)).
    - cbn [fst snd]. unfold arg. rewrite Hkw. reflexivity.
    - repeat (apply list_elem_of_here || apply list_elem_of_further). }
  split; [exact Hattr|]. unfold read_list, list_append. rewrite Hattr.
  split.
  - intros h xs v Hxs. rewrite lookup_alter_eq, Hxs. reflexivity.
  - intros h l' v Hne. apply lookup_alter_ne. exact Hne.
Qed.

Lemma supplied_list_is_stored_by_reference_witness :
  ∃ o, SAMHQVisionConfig.__init__ {["global_attn_indexes" := VList 2%positive]}
       = Returns o
       ∧ read_list o "global_attn_indexes"
           (list_append 2%positive (VInt 7) {[2%positive := [VInt 3]]})
         = Some [VInt 3; VInt 7]
       ∧ read_list o "global_attn_indexes"
           (list_append global_attn_indexes_default (VInt 14)
              (<[2%positive := [VInt 3]]> module_heap))
         = Some [VInt 3].
Proof.
  eexists. split; [reflexivity|].
  edestruct (supplied_list_is_stored_by_reference
               {["global_attn_indexes" := VList 2%positive]})
    as (_ & Hsame & Hother); [reflexivity | reflexivity |].
  split.
  - apply (Hsame {[2%positive := [VInt 3]]} [VInt 3] (VInt 7)). reflexivity.
  - rewrite Hother by discriminate. reflexivity.
Defined.

(** ** SAMHQConfig *)

(** The converse of [config_init_returns]: three mappings that the
    constructors accept give the configuration that holds the three
    instances. *)
Lemma config_init_from_mappings
    (kw : gmap string value) (dv dp dm : dict) (v p m : obj) :
  flatten SAMHQVisionConfig
    (or_empty (default (Plain VNone) (kw !! "vision_config"))) = Dict dv →
  flatten SAMHQPromptEncoderConfig
    (or_empty (default (Plain VNone) (kw !! "prompt_encoder_config")))
  = Dict dp →
  flatten SAMHQMaskDecoderConfig
    (or_empty (default (Plain VNone) (kw !! "mask_decoder_config")))
  = Dict dm →
  SAMHQVisionConfig.__init__ dv = Returns v →
  SAMHQPromptEncoderConfig.__init__ dp = Returns p →
  SAMHQMaskDecoderConfig.__init__ dm = Returns m →
  ∃ cfg, SAMHQConfig.__init__ kw = Returns cfg
         ∧ cfg !! "vision_config" = Some (Object v)
         ∧ cfg !! "prompt_encoder_config" = Some (Object p)
         ∧ cfg !! "mask_decoder_config" = Some (Object m)
         ∧ cfg !! "initializer_range"
           = Some (default (Plain (VFloat 0.02)) (kw !! "initializer_range")).
Proof.
  intros Fv Fp Fm Hv Hp Hm.
  unfold SAMHQConfig.__init__.
  cbn [mbind outcome_bind PretrainedConfig.__init__].
  rewrite Fv, Fp, Fm. cbn [call_unpack].
  rewrite Hv. cbn [mbind outcome_bind].
  rewrite Hp. cbn [mbind outcome_bind].
  rewrite Hm. cbn [mbind outcome_bind].
  eexists. split; [reflexivity|].
  repeat split; read_attr; reflexivity.
Qed.

(** The vision sub-configuration is made first: when its making raises,
    [SAMHQConfig.__init__] raises the same, whatever else it was given. *)
Lemma config_init_vision_raises (kw : gmap string value) (e : exn) :
  call_unpack SAMHQVisionConfig.__init__
    (flatten SAMHQVisionConfig
       (or_empty (default (Plain VNone) (kw !! "vision_config"))))
  = Raises e →
  SAMHQConfig.__init__ kw = Raises e.
Proof.
  intros He. unfold SAMHQConfig.__init__.
  cbn [mbind outcome_bind PretrainedConfig.__init__].
  rewrite He. reflexivity.
Qed.

(** The prompt encoder comes second. *)
Lemma config_init_prompt_encoder_raises
    (kw : gmap string value) (v : obj) (e : exn) :
  call_unpack SAMHQVisionConfig.__init__
    (flatten SAMHQVisionConfig
       (or_empty (default (Plain VNone) (kw !! "vision_config"))))
  = Returns v →
  call_unpack SAMHQPromptEncoderConfig.__init__
    (flatten SAMHQPromptEncoderConfig
       (or_empty (default (Plain VNone) (kw !! "prompt_encoder_config"))))
  = Raises e →
  SAMHQConfig.__init__ kw = Raises e.
Proof.
  intros Hv He. unfold SAMHQConfig.__init__.
  cbn [mbind outcome_bind PretrainedConfig.__init__].
  rewrite Hv. cbn [mbind outcome_bind]. rewrite He. reflexivity.
Qed.

(** X11.  A [vision_config] that is neither [None], nor a [dict], nor a
    [SAMHQVisionConfig] (a number, a string, an instance of another
    configuration class) cannot be unpacked into keywords:
    [SAMHQConfig.__init__] raises [TypeError], whatever the other
    arguments are. *)
Theorem vision_config_of_another_kind_raises
    (kw : gmap string value) (a : value) :
  kw !! "vision_config" = Some a →
  a ≠ Plain VNone →
  (∀ d, a ≠ Dict d) →
  (∀ o, a = Object o → class_of o ≠ SAMHQVisionConfig) →
  SAMHQConfig.__init__ kw = Raises TypeError.
Proof.
  intros Hkw Hnone Hdict Hclass. apply config_init_vision_raises.
  rewrite Hkw. cbn [default from_option id].
  destruct a as [p|d|o].
  - destruct p; try reflexivity. contradiction.
  - exfalso. exact (Hdict d eq_refl).
  - cbn [or_empty flatten isinstance].
    rewrite bool_decide_eq_false_2 by exact (Hclass o eq_refl).
    reflexivity.
Qed.

Lemma vision_config_of_another_kind_raises_witness :
  SAMHQConfig.__init__ {["vision_config" := Plain (VInt 5)]}
  = Raises TypeError
  ∧ SAMHQConfig.__init__
      {["vision_config" := Object (Obj SAMHQPromptEncoderConfig ∅)]}
    = Raises TypeError.
Proof.
  split.
  - apply (vision_config_of_another_kind_raises
             {["vision_config" := Plain (VInt 5)]} (Plain (VInt 5)));
      [reflexivity | discriminate | discriminate | discriminate].
  - apply (vision_config_of_another_kind_raises
             {["vision_config" := Object (Obj SAMHQPromptEncoderConfig ∅)]}
             (Object (Obj SAMHQPromptEncoderConfig ∅)));
      [reflexivity | discriminate | discriminate |].
    intros o [= <-]. discriminate.
Defined.

(** X12.  A [prompt_encoder_config] mapping whose [patch_size] is 0 makes
    [SAMHQConfig.__init__] raise [ZeroDivisionError] once the vision
    configuration is made; [mask_decoder_config] is not looked at
    before. *)
Theorem zero_patch_size_in_the_prompt_mapping_raises
    (kw : gmap string value) (dp : dict) (image : Z) :
  documented_argument SAMHQVisionConfig
    (default (Plain VNone) (kw !! "vision_config")) →
  kw !! "prompt_encoder_config" = Some (Dict dp) →
  arg dp "image_size" (VInt 1024) = VInt image →
  arg dp "patch_size" (VInt 16) = VInt 0 →
  SAMHQConfig.__init__ kw = Raises ZeroDivisionError.
Proof.
  intros Hv Hkw Hi Hp.
  apply documented_argument_normalises in Hv as (dv & v & Fv & Hv).
  cbn [constructor_of] in Hv.
  apply (config_init_prompt_encoder_raises kw v).
  - rewrite Fv. exact Hv.
  - rewrite Hkw. cbn [default from_option id or_empty flatten call_unpack].
    exact (init_zero_patch dp image 0 Hi Hp eq_refl).
Qed.

Lemma zero_patch_size_in_the_prompt_mapping_raises_witness :
  SAMHQConfig.__init__
    {["prompt_encoder_config" := Dict {["patch_size" := VInt 0]};
      "mask_decoder_config" := Plain (VInt 3)]}
  = Raises ZeroDivisionError.
Proof.
  apply (zero_patch_size_in_the_prompt_mapping_raises
           {["prompt_encoder_config" := Dict {["patch_size" := VInt 0]};
             "mask_decoder_config" := Plain (VInt 3)]}
           {["patch_size" := VInt 0]} 1024);
    [left; reflexivity | reflexivity | reflexivity | reflexivity].
Defined.

(** X13.  Each sub-configuration depends on its own argument only: two
    calls that agree on one of the three arguments (an omitted argument
    counting as [None]) and both return hold the same instance under that
    name, whatever the other arguments and [initializer_range] are.
    Nothing checks one sub-configuration against another. *)
Theorem sub_configs_do_not_interfere
    (kw kw' cfg cfg' : gmap string value) (name : string) :
  name = "vision_config" ∨ name = "prompt_encoder_config"
  ∨ name = "mask_decoder_config" →
  default (Plain VNone) (kw !! name) = default (Plain VNone) (kw' !! name) →
  SAMHQConfig.__init__ kw = Returns cfg →
  SAMHQConfig.__init__ kw' = Returns cfg' →
  cfg !! name = cfg' !! name.
Proof.
  intros Hname Hsame Hcfg Hcfg'.
  destruct (config_init_returns kw cfg Hcfg)
    as (dv & dp & dm & v & p & m & Fv & Fp & Fm & Hv & Hp & Hm & Cv & Cp & Cm).
  destruct (config_init_returns kw' cfg' Hcfg')
    as (dv' & dp' & dm' & v' & p' & m' & Fv' & Fp' & Fm'
        & Hv' & Hp' & Hm' & Cv' & Cp' & Cm').
  destruct Hname as [-> | [-> | ->]].
  - rewrite Hsame, Fv' in Fv. injection Fv as <-.
    rewrite Hv' in Hv. apply Returns_inj in Hv. subst v'.
    rewrite Cv, Cv'. reflexivity.
  - rewrite Hsame, Fp' in Fp. injection Fp as <-.
    rewrite Hp' in Hp. apply Returns_inj in Hp. subst p'.
    rewrite Cp, Cp'. reflexivity.
  - rewrite Hsame, Fm' in Fm. injection Fm as <-.
    rewrite Hm' in Hm. apply Returns_inj in Hm. subst m'.
    rewrite Cm, Cm'. reflexivity.
Qed.

Lemma sub_configs_do_not_interfere_witness :
  ∃ cfg cfg',
    SAMHQConfig.__init__
      {["vision_config" := Dict {["hidden_size" := VInt 1280]};
        "mask_decoder_config" := Dict {["vision_encoder_dim" := VInt 768]};
        "initializer_range" := Plain (VFloat 1.0)]} = Returns cfg
    ∧ SAMHQConfig.__init__
        {["vision_config" := Dict {["hidden_size" := VInt 1280]}]}
      = Returns cfg'
    ∧ cfg !! "vision_config" = cfg' !! "vision_config".
Proof.
  do 2 eexists. split; [reflexivity|]. split; [reflexivity|].
  apply (sub_configs_do_not_interfere
           {["vision_config" := Dict {["hidden_size" := VInt 1280]};
             "mask_decoder_config" := Dict {["vision_encoder_dim" := VInt 768]};
             "initializer_range" := Plain (VFloat 1.0)]}
           {["vision_config" := Dict {["hidden_size" := VInt 1280]}]}
           _ _ "vision_config");
    [left; reflexivity | reflexivity | reflexivity | reflexivity].
Defined.

(** X14.  [initializer_range] of [SAMHQConfig] is stored as given, 0.02
    by default, and is not handed down: with [vision_config] omitted the
    vision configuration keeps its own default [initializer_range],
    1e-10. *)
Theorem initializer_range_is_not_handed_down (kw cfg : gmap string value) :
  SAMHQConfig.__init__ kw = Returns cfg →
  cfg !! "initializer_range"
  = Some (default (Plain (VFloat 0.02)) (kw !! "initializer_range"))
  ∧ (default (Plain VNone) (kw !! "vision_config") = Plain VNone →
     ∃ v, cfg !! "vision_config" = Some (Object v)
          ∧ attrs v !! "initializer_range" = Some (VFloat 1e-10)).
Proof.
  intros Hcfg.
  destruct (config_init_returns kw cfg Hcfg)
    as (dv & dp & dm & v & p & m & Fv & Fp & Fm & Hv & Hp & Hm & Cv & _).
  destruct (config_init_from_mappings kw dv dp dm v p m Fv Fp Fm Hv Hp Hm)
    as (cfg' & Hcfg' & _ & _ & _ & Hrange).
  rewrite Hcfg in Hcfg'. apply Returns_inj in Hcfg'. subst cfg'.
  split; [exact Hrange|].
  intros Homitted. exists v. split; [exact Cv|].
  rewrite Homitted in Fv. cbn [or_empty flatten] in Fv. injection Fv as <-.
  apply Returns_inj in Hv. subst v. reflexivity.
Qed.

Lemma initializer_range_is_not_handed_down_witness :
  ∃ cfg v,
    SAMHQConfig.__init__ {["initializer_range" := Plain (VFloat 0.5)]}
    = Returns cfg
    ∧ cfg !! "initializer_range" = Some (Plain (VFloat 0.5))
    ∧ cfg !! "vision_config" = Some (Object v)
    ∧ attrs v !! "initializer_range" = Some (VFloat 1e-10).
Proof.
  eexists.
  edestruct (initializer_range_is_not_handed_down
               {["initializer_range" := Plain (VFloat 0.5)]})
    as [Hrange Hvision]; [reflexivity|].
  destruct Hvision as (v & Cv & Hv); [reflexivity|].
  exists v. split; [reflexivity|].
  split; [exact Hrange|]. split; [exact Cv | exact Hv].
Defined.



(** X16.  An instance passed as [prompt_encoder_config] is not taken
    over as it is: its constructor runs again on its attributes, so the
    [image_embedding_size] of the stored instance is the quotient of the
    [image_size] and [patch_size] the passed instance holds now, whatever
    [image_embedding_size] it holds. *)
Theorem passed_instance_gets_its_quotient_recomputed
    (kw : gmap string value) (o : obj) (image patch : Z) :
  kw !! "prompt_encoder_config" = Some (Object o) →
  class_of o = SAMHQPromptEncoderConfig →
  attrs o !! "image_size" = Some (VInt image) →
  attrs o !! "patch_size" = Some (VInt patch) →
  patch ≠ 0 →
  (∀ cfg, SAMHQConfig.__init__ kw = Returns cfg →
     ∃ o', cfg !! "prompt_encoder_config" = Some (Object o')
           ∧ attrs o' !! "image_size" = Some (VInt image)
           ∧ attrs o' !! "patch_size" = Some (VInt patch)
           ∧ attrs o' !! "image_embedding_size" = Some (VInt (image / patch)))
  ∧ ∃ cfg, SAMHQConfig.__init__ {["prompt_encoder_config" := Object o]}
           = Returns cfg.
Proof.
  intros Hkw Hclass Hi Hp Hne.
  destruct (init_nonzero_patch (attrs o) image patch
              (arg_lookup _ _ _ _ Hi) (arg_lookup _ _ _ _ Hp) Hne)
    as (o' & Ho' & _ & Hi' & Hp' & He').
  split.
  - intros cfg Hcfg.
    destruct (config_init_returns kw cfg Hcfg)
      as (_ & dp & _ & _ & p & _ & _ & Fp & _ & _ & Hp0 & _ & _ & Cp & _).
    rewrite Hkw in Fp. cbn [default from_option id] in Fp.
    rewrite (flatten_instance _ _ Hclass) in Fp. injection Fp as <-.
    unfold PretrainedConfig.to_dict in Hp0.
    rewrite Ho' in Hp0. apply Returns_inj in Hp0. subst p.
    exists o'. auto.
  - edestruct (config_init_from_mappings
                 {["prompt_encoder_config" := Object o]}
                 ∅ (PretrainedConfig.to_dict o) ∅)
      as (cfg & Hcfg & _).
    + rewrite lookup_singleton_ne by discriminate. reflexivity.
    + rewrite lookup_singleton_eq. cbn [default from_option id].
      apply flatten_instance, Hclass.
    + rewrite lookup_singleton_ne by discriminate. reflexivity.
    + reflexivity.
    + exact Ho'.
    + reflexivity.
    + exists cfg. exact Hcfg.
Qed.

Lemma passed_instance_gets_its_quotient_recomputed_witness :
  ∃ cfg o',
    SAMHQConfig.__init__
      {["prompt_encoder_config" :=
          Object (Obj SAMHQPromptEncoderConfig
                    {["image_size" := VInt 1024; "patch_size" := VInt 8;
                      "image_embedding_size" := VInt 64]})]} = Returns cfg
    ∧ cfg !! "prompt_encoder_config" = Some (Object o')
    ∧ attrs o' !! "image_embedding_size" = Some (VInt 128).
Proof.
  eexists.
  edestruct (passed_instance_gets_its_quotient_recomputed
               {["prompt_encoder_config" :=
                   Object (Obj SAMHQPromptEncoderConfig
                             {["image_size" := VInt 1024;
                               "patch_size" := VInt 8;
                               "image_embedding_size" := VInt 64]})]}
               (Obj SAMHQPromptEncoderConfig
                  {["image_size" := VInt 1024; "patch_size" := VInt 8;
                    "image_embedding_size" := VInt 64]})
               1024 8)
    as [Hstored _];
    [reflexivity | reflexivity | reflexivity | reflexivity | lia |].
  edestruct Hstored as (o' & Co & _ & _ & He); [reflexivity|].
  exists o'. split; [reflexivity|]. split; [exact Co | exact He].
Defined.

(** X17.  The [mlp_dim] of an instance passed as [vision_config] is not
    derived again: it goes back into the constructor as a supplied
    [mlp_dim], so the stored instance holds it unchanged, whatever
    [hidden_size] and [mlp_ratio] the passed instance holds now. *)
Theorem passed_instance_keeps_its_mlp_dim
    (kw : gmap string value) (o : obj) (m : pyval) :
  kw !! "vision_config" = Some (Object o) →
  class_of o = SAMHQVisionConfig →
  attrs o !! "mlp_dim" = Some m →
  m ≠ VNone →
  (∀ cfg, SAMHQConfig.__init__ kw = Returns cfg →
     ∃ o', cfg !! "vision_config" = Some (Object o')
           ∧ attrs o' !! "mlp_dim" = Some m
           ∧ attrs o' !! "hidden_size"
             = Some (arg (attrs o) "hidden_size" (VInt 768))
           ∧ attrs o' !! "mlp_ratio"
             = Some (arg (attrs o) "mlp_ratio" (VFloat 4.0)))
  ∧ ∃ cfg, SAMHQConfig.__init__ {["vision_config" := Object o]}
           = Returns cfg.
Proof.
  intros Hkw Hclass Hm Hne.
  destruct (init_explicit_mlp_dim (attrs o) m (arg_lookup _ _ _ _ Hm) Hne)
    as (o' & Ho' & _ & Hm' & Hr' & Hh').
  split.
  - intros cfg Hcfg.
    destruct (config_init_returns kw cfg Hcfg)
      as (dv & _ & _ & v & _ & _ & Fv & _ & _ & Hv & _ & _ & Cv & _).
    rewrite Hkw in Fv. cbn [default from_option id] in Fv.
    rewrite (flatten_instance _ _ Hclass) in Fv. injection Fv as <-.
    unfold PretrainedConfig.to_dict in Hv.
    rewrite Ho' in Hv. apply Returns_inj in Hv. subst v.
    exists o'. auto.
  - edestruct (config_init_from_mappings
                 {["vision_config" := Object o]}
                 (PretrainedConfig.to_dict o) ∅ ∅)
      as (cfg & Hcfg & _).
    + rewrite lookup_singleton_eq. cbn [default from_option id].
      apply flatten_instance, Hclass.
    + rewrite lookup_singleton_ne by discriminate. reflexivity.
    + rewrite lookup_singleton_ne by discriminate. reflexivity.
    + exact Ho'.
    + reflexivity.
    + reflexivity.
    + exists cfg. exact Hcfg.
Qed.

Lemma passed_instance_keeps_its_mlp_dim_witness :
  ∃ cfg o',
    SAMHQConfig.__init__
      {["vision_config" :=
          Object (Obj SAMHQVisionConfig
                    {["hidden_size" := VInt 1024; "mlp_ratio" := VFloat 4.0;
                      "mlp_dim" := VInt 3072]})]} = Returns cfg
    ∧ cfg !! "vision_config" = Some (Object o')
    ∧ attrs o' !! "hidden_size" = Some (VInt 1024)
    ∧ attrs o' !! "mlp_dim" = Some (VInt 3072).
Proof.
  eexists.
  edestruct (passed_instance_keeps_its_mlp_dim
               {["vision_config" :=
                   Object (Obj SAMHQVisionConfig
                             {["hidden_size" := VInt 1024;
                               "mlp_ratio" := VFloat 4.0;
                               "mlp_dim" := VInt 3072]})]}
               (Obj SAMHQVisionConfig
                  {["hidden_size" := VInt 1024; "mlp_ratio" := VFloat 4.0;
                    "mlp_dim" := VInt 3072]})
               (VInt 3072))
    as [Hstored _];
    [reflexivity | reflexivity | reflexivity | discriminate |].
  edestruct Hstored as (o' & Co & Hm & Hh & _); [reflexivity|].
  exists o'. split; [reflexivity|]. split; [exact Co|].
  split; [exact Hh | exact Hm].
Defined.

(** X18.  The vision configuration inside a [SAMHQConfig] built without
    [vision_config], or from a mapping without [global_attn_indexes],
    holds the shared default list object too: an append to that object
    shows through it. *)
Theorem config_holds_the_shared_default_list (kw cfg : gmap string value) :
  default (Plain VNone) (kw !! "vision_config") = Plain VNone
  ∨ (∃ d, kw !! "vision_config" = Some (Dict d)
          ∧ d !! "global_attn_indexes" = None) →
  SAMHQConfig.__init__ kw = Returns cfg →
  ∃ v, cfg !! "vision_config" = Some (Object v)
       ∧ attrs v !! "global_attn_indexes"
         = Some (VList global_attn_indexes_default)
       ∧ ∀ (h : heap) (xs : list pyval) (x : pyval),
           h !! global_attn_indexes_default = Some xs →
           read_list v "global_attn_indexes"
             (list_append global_attn_indexes_default x h)
           = Some (xs ++ [x]).
Proof.
  intros Hvision Hcfg.
  destruct (config_init_returns kw cfg Hcfg)
    as (dv & _ & _ & v & _ & _ & Fv & _ & _ & Hv & _ & _ & Cv & _).
  assert (Hkey : dv !! "global_attn_indexes" = None).
  { destruct Hvision as [Homitted | (d & Hd & Hkey)].
    - rewrite Homitted in Fv. cbn [or_empty flatten] in Fv.
      injection Fv as <-. apply lookup_empty.
    - rewrite Hd in Fv. cbn [default from_option id or_empty flatten] in Fv.
      injection Fv as <-. exact Hkey. }
  pose proof (omitted_global_attn_indexes dv v Hkey Hv) as Hattr.
  exists v. split; [exact Cv|]. split; [exact Hattr|].
  intros h xs x Hxs. unfold read_list, list_append.
  rewrite Hattr, lookup_alter_eq, Hxs. reflexivity.
Qed.

Lemma config_holds_the_shared_default_list_witness :
  ∃ cfg v,
    SAMHQConfig.__init__ ∅ = Returns cfg
    ∧ cfg !! "vision_config" = Some (Object v)
    ∧ read_list v "global_attn_indexes"
        (list_append global_attn_indexes_default (VInt 14) module_heap)
      = Some [VInt 2; VInt 5; VInt 8; VInt 11; VInt 14].
Proof.
  eexists.
  edestruct (config_holds_the_shared_default_list ∅)
    as (v & Cv & _ & Hshared); [left; reflexivity | reflexivity |].
  exists v. split; [reflexivity|]. split; [exact Cv|].
  apply (Hshared module_heap [VInt 2; VInt 5; VInt 8; VInt 11] (VInt 14)).
  reflexivity.
Defined.
